(** * Scrible: chunker, vector store and retrieval engine

    A shallow embedding of the Python sources

      - [scripts/production-setup.py]        (class [ProductionVectorDB])
      - [scripts/setup-production-system.py] (class [ScriblProductionSystem])
      - [scripts/setup-vector-db.py]         (class [VectorDBSetup])

    Python [str] values are modelled by [string]; a character stands for the
    code point of the same number (0..255).  Python [int] is [Z], list
    lengths are [nat].  Similarity scores are finite floating point numbers,
    on which the code only uses comparisons and [min]; they are modelled by
    rationals [Q].  The embedder, the FAISS index search and the language
    model are collaborators outside the repository: they are the fields of
    the class [Collaborators], and every one of them may raise.  An index
    remembers how it was constructed; what the search of an index with the
    Euclidean metric reports is a squared distance, and the class says so. *)

From Stdlib Require Import Bool List ZArith QArith Lia Ascii String DecimalString Sorted
  Permutation.
Import ListNotations.

Close Scope Q_scope.
Local Open Scope string_scope.
Local Open Scope list_scope.

(** ** Python string primitives *)

Module PyStr.

(** [str.isspace] on the code points below 256. *)
Definition is_space (c : ascii) : bool :=
  let n := nat_of_ascii c in
  (Nat.leb 9 n && Nat.leb n 13) || (Nat.leb 28 n && Nat.leb n 32)
  || Nat.eqb n 133 || Nat.eqb n 160.

(** Truth value of a string: [bool(s)], true iff [s] is not empty. *)
Definition truthy (s : string) : bool :=
  match s with
  | EmptyString => false
  | String _ _ => true
  end.

(** [s.replace('\n', ' ')] *)
Fixpoint replace_nl (s : string) : string :=
  match s with
  | EmptyString => EmptyString
  | String c r =>
      String (if Ascii.eqb c "010"%char then " "%char else c) (replace_nl r)
  end.

(** [s.split('. ')]: leftmost non-overlapping occurrences of the
    separator; the result always has at least one piece. *)
Fixpoint split_dot (s : string) : list string :=
  match s with
  | EmptyString => [EmptyString]
  | String c r =>
      match c, r with
      | "."%char, String " "%char r' => EmptyString :: split_dot r'
      | _, _ =>
          match split_dot r with
          | p :: ps => String c p :: ps
          | [] => [String c EmptyString]
          end
      end
  end.

Fixpoint lstrip (s : string) : string :=
  match s with
  | EmptyString => EmptyString
  | String c r => if is_space c then lstrip r else s
  end.

Fixpoint rstrip (s : string) : string :=
  match s with
  | EmptyString => EmptyString
  | String c r =>
      match rstrip r with
      | EmptyString => if is_space c then EmptyString else String c EmptyString
      | r' => String c r'
      end
  end.

(** [s.strip()] *)
Definition strip (s : string) : string := rstrip (lstrip s).

(** [sep.join(l)] *)
Definition join (sep : string) (l : list string) : string :=
  String.concat sep l.

(** [l[j:]] for a Python list and an arbitrary integer [j]. *)
Definition slice_from {A : Type} (j : Z) (l : list A) : list A :=
  let n := Z.of_nat (List.length l) in
  let start := if (j <? 0)%Z then Z.max (n + j) 0 else Z.min j n in
  skipn (Z.to_nat start) l.

(** [l[0] if l else ""] and [l[-1] if l else ""] *)
Definition first_or_empty (l : list string) : string := hd "" l.
Definition last_or_empty (l : list string) : string := last l "".

(** [s[:n]] for [n >= 0] *)
Definition take (n : nat) (s : string) : string := String.substring 0 n s.

(** [str(i)] for a non-negative integer. *)
Definition str_of_nat (i : nat) : string :=
  NilEmpty.string_of_uint (Nat.to_uint i).

End PyStr.

(** ** The chunker ([intelligent_chunking], identical in
       [production-setup.py] and [setup-production-system.py]) *)

Module Chunker.
Import PyStr.

Record chunk_info : Type := mk_chunk_info {
  text : string;
  sentence_count : nat;
  char_count : nat;
  start_sentence : string;
  end_sentence : string
}.

(** The local variables of the loop. *)
Record loop_state : Type := mk_loop_state {
  chunks : list chunk_info;
  current_chunk : string;
  current_sentences : list string
}.

Definition init_state : loop_state := mk_loop_state [] "" [].

(** The dictionary built from the running chunk, at both places where the
    source builds it. *)
Definition chunk_of (st : loop_state) : chunk_info :=
  {| text := strip (current_chunk st);
     sentence_count := List.length (current_sentences st);
     char_count := String.length (current_chunk st);
     start_sentence := first_or_empty (current_sentences st);
     end_sentence := last_or_empty (current_sentences st) |}.

(** [current_sentences[-overlap//50:] if len(current_sentences) > overlap//50
    else []]; the unary minus binds tighter than [//], which floors. *)
Definition overlap_slice (overlap : Z) (sents : list string) : list string :=
  if (Z.of_nat (List.length sents) >? overlap / 50)%Z
  then slice_from ((- overlap) / 50)%Z sents
  else [].

(** The loop body below the [continue], for a stripped, non-empty
    [sentence]. *)
Definition add_sentence (chunk_size overlap : Z) (st : loop_state)
    (sentence : string) : loop_state :=
  let test_chunk :=
    if truthy (current_chunk st)
    then (current_chunk st ++ ". " ++ sentence)%string
    else sentence in
  let st1 :=
    if (Z.of_nat (String.length test_chunk) >? chunk_size)%Z
       && truthy (current_chunk st)
    then
      let overlap_sentences := overlap_slice overlap (current_sentences st) in
      {| chunks := chunks st ++ [chunk_of st];
         current_chunk := join ". " overlap_sentences;
         current_sentences := overlap_sentences |}
    else st in
  {| chunks := chunks st1;
     current_chunk := test_chunk;
     current_sentences := current_sentences st1 ++ [sentence] |}.

(** One iteration of the [for] loop. *)
Definition step (chunk_size overlap : Z) (st : loop_state) (raw : string)
  : loop_state :=
  let sentence := strip raw in
  if negb (truthy sentence) then st
  else add_sentence chunk_size overlap st sentence.

Definition run (chunk_size overlap : Z) (raws : list string) (st : loop_state)
  : loop_state :=
  fold_left (step chunk_size overlap) raws st.

Definition finish (st : loop_state) : list chunk_info :=
  if truthy (strip (current_chunk st))
  then chunks st ++ [chunk_of st]
  else chunks st.

Definition intelligent_chunking (text : string) (chunk_size overlap : Z)
  : list chunk_info :=
  finish (run chunk_size overlap (split_dot (replace_nl text)) init_state).

(** The sentences the loop does not skip. *)
Definition sentences (text : string) : list string :=
  filter truthy (map strip (split_dot (replace_nl text))).

End Chunker.

(** ** Exceptions and mutable object state

    A method of an object with fields [S] that returns an [A] or raises.
    An exception is represented by its message.  A raised exception does not
    undo the assignments made before it. *)

Module Py.

Inductive outcome (A : Type) : Type :=
| Returns (a : A)
| Raises (e : string).
Arguments Returns {A} a.
Arguments Raises {A} e.

Definition py (S A : Type) : Type := S -> outcome A * S.

Definition ret {S A} (a : A) : py S A := fun s => (Returns a, s).
Definition raise {S A} (e : string) : py S A := fun s => (Raises e, s).
Definition bind {S A B} (m : py S A) (k : A -> py S B) : py S B :=
  fun s =>
    match m s with
    | (Returns a, s') => k a s'
    | (Raises e, s') => (Raises e, s')
    end.
Definition get {S} : py S S := fun s => (Returns s, s).
Definition put {S} (s : S) : py S unit := fun _ => (Returns tt, s).

(** Calling a collaborator that does not touch the fields. *)
Definition call {S A} (o : outcome A) : py S A := fun s => (o, s).

(** [try: m  except Exception as e: h e] *)
Definition try_except {S A} (m : py S A) (h : string -> py S A) : py S A :=
  fun s =>
    match m s with
    | (Returns a, s') => (Returns a, s')
    | (Raises e, s') => h e s'
    end.

(** [l[0]] on a sequence: [IndexError] when it is empty. *)
Definition item0 {S A} (l : list A) : py S A :=
  match l with
  | x :: _ => ret x
  | [] => raise "IndexError"
  end.

(** [d[key]] on a dictionary, [o] being the value under [key] if there is
    one: [KeyError(key)] when the key is absent; the message of a
    [KeyError] is the [repr] of the key. *)
Definition getitem {S A} (key : string) (o : option A) : py S A :=
  match o with
  | Some a => ret a
  | None => raise ("'" ++ key ++ "'")%string
  end.

Declare Scope py_scope.
Delimit Scope py_scope with py.
Notation "x <- m ;; k" := (bind m (fun x => k))
  (at level 61, m at next level, right associativity) : py_scope.
Notation "m ;;; k" := (bind m (fun _ => k))
  (at level 61, right associativity) : py_scope.

End Py.

(** ** The third-party index [faiss.IndexIDMap]

    The library is not part of the repository.  What the code relies on is
    modelled here.  An index is an [IndexIDMap] around the index that was
    handed to it; it keeps the metric and the graph parameters of that
    index and the sequence of (external id, vector) rows in insertion
    order.  The dimension of an index is the one of the type of its
    vectors.  [add_with_ids] checks that it received one id per row and
    appends the rows, and it never looks at the ids already stored. *)

Module Faiss.
Import Py.

(** [faiss.METRIC_INNER_PRODUCT] and [faiss.METRIC_L2] *)
Inductive metric : Type :=
| METRIC_INNER_PRODUCT
| METRIC_L2.

(** The attributes of [index.hnsw] that the code assigns, and the number
    [M] of neighbours. *)
Record hnsw_params : Type := mk_hnsw_params {
  M : Z;
  efConstruction : Z;
  efSearch : Z
}.

(** The index under the [IndexIDMap]: flat when [hnsw] is [None]. *)
Record storage : Type := mk_storage {
  metric_type : metric;
  hnsw : option hnsw_params
}.

(** [faiss.IndexFlatIP(d)] *)
Definition IndexFlatIP : storage := mk_storage METRIC_INNER_PRODUCT None.

(** [faiss.IndexHNSWFlat(d, M)]: no metric is given, and the metric of the
    library is then [METRIC_L2]; [efConstruction] and [efSearch] start at
    40 and 16. *)
Definition IndexHNSWFlat (M : Z) : storage :=
  mk_storage METRIC_L2 (Some (mk_hnsw_params M 40 16)).

(** [index.hnsw.efConstruction = n] *)
Definition set_efConstruction (n : Z) (s : storage) : storage :=
  mk_storage (metric_type s)
    (match hnsw s with
     | Some p => Some (mk_hnsw_params (M p) n (efSearch p))
     | None => None
     end).

(** [index.hnsw.efSearch = n] *)
Definition set_efSearch (n : Z) (s : storage) : storage :=
  mk_storage (metric_type s)
    (match hnsw s with
     | Some p => Some (mk_hnsw_params (M p) (efConstruction p) n)
     | None => None
     end).

Record index (vec : Type) : Type := mk_index {
  sub_index : storage;
  rows : list (Z * vec)
}.
Arguments mk_index {vec} _ _.
Arguments sub_index {vec} _.
Arguments rows {vec} _.

(** [faiss.IndexIDMap(index)] around an index that holds no vector yet. *)
Definition IndexIDMap {vec : Type} (s : storage) : index vec := mk_index s [].

Definition ntotal {vec : Type} (ix : index vec) : nat := List.length (rows ix).

Definition ids {vec : Type} (ix : index vec) : list Z := map fst (rows ix).

Definition add_with_ids {vec : Type} (ix : index vec) (x : list vec) (xids : list Z)
  : outcome (index vec) :=
  if Nat.eqb (List.length x) (List.length xids)
  then Returns (mk_index (sub_index ix) (rows ix ++ combine xids x))
  else Raises "not same nb of vectors as ids".

(** A row of scores as [search] reports it under [METRIC_L2]: squared
    Euclidean distances, none of them negative, the smallest first. *)
Definition distances (row : list Q) : Prop :=
  Forall (fun d => (0 <= d)%Q) row /\ StronglySorted Qle row.

End Faiss.

(** ** Collaborators *)

Class Collaborators : Type := {
  (** rows of the embedding matrices *)
  vec : Type;
  (** Python's built-in [hash] on [str]; it is seeded per process *)
  hash : string -> Z;
  (** [self.model.encode(texts, ...)] *)
  encode : list string -> Py.outcome (list vec);
  (** [m / np.linalg.norm(m, axis=1, keepdims=True)] *)
  normalize : list vec -> Py.outcome (list vec);
  (** [self.index.search(queries.astype('float32'), k)]: the score matrix
      and the id matrix, one row per query; [-1] is the id of an empty slot *)
  index_search :
    Faiss.index vec -> list vec -> Z -> Py.outcome (list (list Q) * list (list Z));
  (** on an index with the metric [METRIC_L2] the scores are distances *)
  index_search_L2 :
    forall ix x k D I,
      Faiss.metric_type (Faiss.sub_index ix) = Faiss.METRIC_L2 ->
      index_search ix x k = Py.Returns (D, I) ->
      Forall Faiss.distances D;
  (** [openai.api_key] *)
  openai_api_key : string;
  (** [openai.ChatCompletion.acreate] with the system and the user message;
      the text of the first choice *)
  chat_completion : string -> string -> Py.outcome string
}.

(** [hash(chunk_id) % (2**31)] *)
Definition numeric_id `{Collaborators} (chunk_id : string) : Z :=
  (hash chunk_id mod 2 ^ 31)%Z.

(** ** [production-setup.py]: class [ProductionVectorDB] *)

Module ProductionVectorDB.
Import PyStr Chunker Py.
Local Open Scope py_scope.

(** The argument of [process_document_async], a dictionary: each field is
    the value under the key of its name, if the dictionary has that key.
    [id] is read with [document['id']], the other keys with [dict.get]. *)
Record document : Type := mk_document {
  id : option string;
  name : option string;
  type : option string;
  content : option string
}.

Definition dict_get {A : Type} (o : option A) (default : A) : A :=
  match o with
  | Some a => a
  | None => default
  end.

(** An entry of [self.chunk_metadata].  The time stamp [processed_at] is
    left out: nothing reads it. *)
Record metadata : Type := mk_metadata {
  doc_id : string;
  chunk_id : string;
  chunk_index : nat;
  document_name : string;
  document_type : string;
  m_content : string;
  m_sentence_count : nat;
  m_char_count : nat;
  embedding_id : Z
}.

(** The fields of the object that the methods assign. *)
Record state (V : Type) : Type := mk_state {
  index : option (Faiss.index V);
  chunk_metadata : list metadata
}.
Arguments mk_state {V} _ _.
Arguments index {V} _.
Arguments chunk_metadata {V} _.

(** The fields after [__init__]. *)
Definition initial {V : Type} : state V := mk_state None [].

(** [create_optimized_index] *)
Definition create_optimized_index `{Collaborators} : Faiss.index vec :=
  let index := Faiss.IndexHNSWFlat 32 in
  let index := Faiss.set_efConstruction 200 index in
  let index := Faiss.set_efSearch 100 index in
  Faiss.IndexIDMap index.

(** What [process_document_async] returns.  The summary, the key points
    and the time stamp of the completed result are left out: they are
    computed from [content] alone, after the stores were updated, by
    string functions that do not raise. *)
Inductive process_result : Type :=
| Completed (doc_id : string) (chunks_created embeddings_generated : nat)
| Error (message : string).

(** [f"{doc_id}_chunk_{i}" for i in range(n)] *)
Definition chunk_ids_of (doc_id : string) (n : nat) : list string :=
  map (fun i => (doc_id ++ "_chunk_" ++ str_of_nat i)%string) (seq 0 n).

(** The metadata loop over [enumerate(zip(chunks, chunk_ids))]. *)
Definition metadata_of (d : document) (doc_id doc_type : string) (i : nat)
    (chunk : chunk_info) (chunk_id : string) (eid : Z) : metadata :=
  {| doc_id := doc_id;
     chunk_id := chunk_id;
     chunk_index := i;
     document_name := dict_get (name d) "Unknown";
     document_type := doc_type;
     m_content := text chunk;
     m_sentence_count := sentence_count chunk;
     m_char_count := char_count chunk;
     embedding_id := eid |}.

Fixpoint store_metadata (d : document) (doc_id doc_type : string) (i : nat)
    (zipped : list (chunk_info * string)) (numeric_ids : list Z)
  : list metadata :=
  match zipped with
  | [] => []
  | (chunk, chunk_id) :: rest =>
      metadata_of d doc_id doc_type i chunk chunk_id (nth i numeric_ids 0%Z)
        :: store_metadata d doc_id doc_type (S i) rest numeric_ids
  end.

Definition process_document_async `{Collaborators} (d : document)
  : py (state vec) process_result :=
  doc_id <- getitem "id" (id d) ;;
  let content := dict_get (content d) "" in
  let doc_type := dict_get (type d) "unknown" in
  if negb (truthy content) then ret (Error "No content to process")
  else
    try_except
      (let chunks := intelligent_chunking content 512 64 in
       let chunk_texts := map text chunks in
       embeddings <- call (encode chunk_texts) ;;
       embeddings <- call (normalize embeddings) ;;
       st <- get ;;
       ix <- match index st with
             | None =>
                 put (mk_state (Some create_optimized_index) (chunk_metadata st)) ;;;
                 ret create_optimized_index
             | Some ix => ret ix
             end ;;
       let chunk_ids := chunk_ids_of doc_id (List.length chunks) in
       let numeric_ids := map numeric_id chunk_ids in
       ix' <- call (Faiss.add_with_ids ix embeddings numeric_ids) ;;
       st <- get ;;
       put (mk_state (Some ix') (chunk_metadata st)) ;;;
       st <- get ;;
       put (mk_state (index st)
              (chunk_metadata st
                 ++ store_metadata d doc_id doc_type 0 (combine chunks chunk_ids)
                      numeric_ids)) ;;;
       ret (Completed doc_id (List.length chunks) (List.length embeddings)))
      (fun e =>
         ret (Error ("Failed to process document " ++ doc_id ++ ": " ++ e)%string)).

(** An element of the list returned by [semantic_search]. *)
Record search_result : Type := mk_search_result {
  r_content : string;
  r_document_name : string;
  r_document_type : string;
  r_chunk_index : nat;
  similarity_score : Q;
  r_doc_id : string;
  r_chunk_id : string
}.

Definition result_of (m : metadata) (score : Q) : search_result :=
  {| r_content := m_content m;
     r_document_name := document_name m;
     r_document_type := document_type m;
     r_chunk_index := chunk_index m;
     similarity_score := score;
     r_doc_id := doc_id m;
     r_chunk_id := chunk_id m |}.

(** The inner loop: the first record whose [embedding_id] equals [idx]
    is appended, and the loop breaks. *)
Definition lookup (mds : list metadata) (idx : Z) : option metadata :=
  find (fun m => Z.eqb (embedding_id m) idx) mds.

(** The loop over [zip(scores[0], indices[0])]. *)
Fixpoint collect (mds : list metadata) (hits : list (Q * Z))
  : list search_result :=
  match hits with
  | [] => []
  | (score, idx) :: rest =>
      (if negb (Z.eqb idx (-1))
       then match lookup mds idx with
            | Some m => [result_of m score]
            | None => []
            end
       else [])
      ++ collect mds rest
  end.

(** The block under [try:] in [semantic_search]; [ix] is [self.index]. *)
Definition search_block `{Collaborators} (ix : Faiss.index vec) (query : string)
    (k : Z) : py (state vec) (list search_result) :=
  query_embedding <- call (encode [query]) ;;
  query_embedding <- call (normalize query_embedding) ;;
  found <- call (index_search ix query_embedding k) ;;
  scores0 <- item0 (fst found) ;;
  indices0 <- item0 (snd found) ;;
  st <- get ;;
  ret (collect (chunk_metadata st) (combine scores0 indices0)).

Definition semantic_search `{Collaborators} (query : string) (k : Z)
  : py (state vec) (list search_result) :=
  st <- get ;;
  match index st with
  | None => ret []
  | Some ix =>
      if Nat.eqb (List.length (chunk_metadata st)) 0 then ret []
      else try_except (search_block ix query k) (fun _ => ret [])
  end.

End ProductionVectorDB.

(** ** [setup-production-system.py]: class [ScriblProductionSystem] *)

(** Content extraction (PDF, web page, video captions) reads files and the
    network.  Each extractor of the source catches every exception and
    returns a dictionary with a [success] flag; they are taken as
    functions from the path or URL to that dictionary. *)

Definition source_metadata : Type := list (string * string).

Record extraction_result : Type := mk_extraction_result {
  x_content : string;
  x_metadata : source_metadata;
  success : bool;
  x_error : option string
}.

Class Extractors : Type := {
  extract_pdf_content : string -> extraction_result;
  extract_web_content : string -> extraction_result;
  extract_youtube_content : string -> extraction_result
}.

Module ScriblProductionSystem.
Import PyStr Chunker Py.
Local Open Scope py_scope.

Definition nl : string := String "010"%char EmptyString.

Definition dict_get {A : Type} (o : option A) (default : A) : A :=
  match o with
  | Some a => a
  | None => default
  end.

(** The argument of [process_document_async], a dictionary: each field is
    the value under the key of its name, if the dictionary has that key.
    [id] and [type] are read with [document[...]], the other keys with
    [dict.get]. *)
Record document : Type := mk_document {
  id : option string;
  type : option string;
  path : option string;
  url : option string;
  name : option string
}.

(** An entry of [self.chunk_metadata], without the time stamp. *)
Record metadata : Type := mk_metadata {
  doc_id : string;
  chunk_id : string;
  chunk_index : nat;
  document_name : string;
  document_type : string;
  m_content : string;
  m_sentence_count : nat;
  m_char_count : nat;
  embedding_id : Z;
  m_metadata : source_metadata
}.

Record state (V : Type) : Type := mk_state {
  index : option (Faiss.index V);
  chunk_metadata : list metadata
}.
Arguments mk_state {V} _ _.
Arguments index {V} _.
Arguments chunk_metadata {V} _.

Definition initial {V : Type} : state V := mk_state None [].

(** [create_optimized_index] *)
Definition create_optimized_index `{Collaborators} : Faiss.index vec :=
  let index := Faiss.IndexHNSWFlat 32 in
  let index := Faiss.set_efConstruction 200 index in
  let index := Faiss.set_efSearch 100 index in
  Faiss.IndexIDMap index.

(** The result dictionary, without summary, key points and time stamp
    (computed after the stores were updated; [generate_summary] and
    [extract_key_points] catch the exceptions of the language model). *)
Inductive process_result : Type :=
| Completed (doc_id : string) (chunks_created embeddings_generated : nat)
    (md : source_metadata)
| Failed (error : string).

Definition chunk_ids_of (doc_id : string) (n : nat) : list string :=
  map (fun i => (doc_id ++ "_chunk_" ++ str_of_nat i)%string) (seq 0 n).

Definition metadata_of (d : document) (doc_id doc_type : string)
    (md : source_metadata) (i : nat)
    (chunk : chunk_info) (chunk_id : string) (eid : Z) : metadata :=
  {| doc_id := doc_id;
     chunk_id := chunk_id;
     chunk_index := i;
     document_name := dict_get (name d) "Unknown";
     document_type := doc_type;
     m_content := text chunk;
     m_sentence_count := sentence_count chunk;
     m_char_count := char_count chunk;
     embedding_id := eid;
     m_metadata := md |}.

Fixpoint store_metadata (d : document) (doc_id doc_type : string)
    (md : source_metadata) (i : nat)
    (zipped : list (chunk_info * string)) (numeric_ids : list Z)
  : list metadata :=
  match zipped with
  | [] => []
  | (chunk, chunk_id) :: rest =>
      metadata_of d doc_id doc_type md i chunk chunk_id (nth i numeric_ids 0%Z)
        :: store_metadata d doc_id doc_type md (S i) rest numeric_ids
  end.

(** Step 1 of [process_document_async]. *)
Definition extract `{Extractors} {S : Type} (doc_type doc_path doc_url : string)
  : py S extraction_result :=
  if String.eqb doc_type "pdf" then ret (extract_pdf_content doc_path)
  else if String.eqb doc_type "url" then ret (extract_web_content doc_url)
  else if String.eqb doc_type "youtube" then ret (extract_youtube_content doc_url)
  else raise ("Unsupported document type: " ++ doc_type)%string.

Definition process_document_async `{Collaborators} `{Extractors} (d : document)
  : py (state vec) process_result :=
  doc_id <- getitem "id" (id d) ;;
  doc_type <- getitem "type" (type d) ;;
  let doc_path := dict_get (path d) "" in
  let doc_url := dict_get (url d) "" in
  try_except
    (extraction_result <- extract doc_type doc_path doc_url ;;
     if negb (success extraction_result)
     then ret (Failed (dict_get (x_error extraction_result) "Content extraction failed"))
     else
       let content := x_content extraction_result in
       let md := x_metadata extraction_result in
       let chunks := intelligent_chunking content 512 64 in
       let chunk_texts := map text chunks in
       embeddings <- call (encode chunk_texts) ;;
       embeddings <- call (normalize embeddings) ;;
       st <- get ;;
       ix <- match index st with
             | None =>
                 put (mk_state (Some create_optimized_index) (chunk_metadata st)) ;;;
                 ret create_optimized_index
             | Some ix => ret ix
             end ;;
       let chunk_ids := chunk_ids_of doc_id (List.length chunks) in
       let numeric_ids := map numeric_id chunk_ids in
       ix' <- call (Faiss.add_with_ids ix embeddings numeric_ids) ;;
       st <- get ;;
       put (mk_state (Some ix') (chunk_metadata st)) ;;;
       st <- get ;;
       put (mk_state (index st)
              (chunk_metadata st
                 ++ store_metadata d doc_id doc_type md 0 (combine chunks chunk_ids)
                      numeric_ids)) ;;;
       ret (Completed doc_id (List.length chunks) (List.length embeddings) md))
    (fun e =>
       ret (Failed ("Failed to process document " ++ doc_id ++ ": " ++ e)%string)).

Record search_result : Type := mk_search_result {
  r_content : string;
  r_document_name : string;
  r_document_type : string;
  r_chunk_index : nat;
  similarity_score : Q;
  r_doc_id : string;
  r_chunk_id : string;
  r_metadata : source_metadata
}.

Definition result_of (m : metadata) (score : Q) : search_result :=
  {| r_content := m_content m;
     r_document_name := document_name m;
     r_document_type := document_type m;
     r_chunk_index := chunk_index m;
     similarity_score := score;
     r_doc_id := doc_id m;
     r_chunk_id := chunk_id m;
     r_metadata := m_metadata m |}.

Definition lookup (mds : list metadata) (idx : Z) : option metadata :=
  find (fun m => Z.eqb (embedding_id m) idx) mds.

Fixpoint collect (mds : list metadata) (hits : list (Q * Z))
  : list search_result :=
  match hits with
  | [] => []
  | (score, idx) :: rest =>
      (if negb (Z.eqb idx (-1))
       then match lookup mds idx with
            | Some m => [result_of m score]
            | None => []
            end
       else [])
      ++ collect mds rest
  end.

(** The block under [try:] in [semantic_search]; [ix] is [self.index]. *)
Definition search_block `{Collaborators} (ix : Faiss.index vec) (query : string)
    (k : Z) : py (state vec) (list search_result) :=
  query_embedding <- call (encode [query]) ;;
  query_embedding <- call (normalize query_embedding) ;;
  found <- call (index_search ix query_embedding k) ;;
  scores0 <- item0 (fst found) ;;
  indices0 <- item0 (snd found) ;;
  st <- get ;;
  ret (collect (chunk_metadata st) (combine scores0 indices0)).

Definition semantic_search `{Collaborators} (query : string) (k : Z)
  : py (state vec) (list search_result) :=
  st <- get ;;
  match index st with
  | None => ret []
  | Some ix =>
      if Nat.eqb (List.length (chunk_metadata st)) 0 then ret []
      else try_except (search_block ix query k) (fun _ => ret [])
  end.

(** *** Answer synthesis *)

Record source : Type := mk_source {
  s_document : string;
  s_type : string;
  similarity : Q;
  excerpt : string
}.

Record answer_result : Type := mk_answer_result {
  answer : string;
  sources : list source;
  confidence : Q
}.

(** The built-in [min(a, b)]: [b] when [b < a], else [a]. *)
Definition py_min (a b : Q) : Q := if Qle_bool a b then a else b.

Definition no_information : string :=
  "I don't have enough information in the knowledge base to answer this question.".

Definition error_answer : string :=
  "I encountered an error while processing your question. Please try again.".

Definition system_prompt : string :=
  "You are a helpful research assistant. Answer the user's question based on the provided context. Be accurate and cite your sources. If the context doesn't contain enough information, say so clearly.".

Definition context_of (relevant_chunks : list search_result) : string :=
  join (nl ++ nl)
    (map (fun chunk =>
            ("Source: " ++ r_document_name chunk ++ " (" ++ r_document_type chunk
               ++ ")" ++ nl ++ r_content chunk)%string)
       relevant_chunks).

Definition user_prompt (context question : string) : string :=
  ("Context:" ++ nl ++ context ++ nl ++ nl ++ "Question: " ++ question ++ nl ++ nl
     ++ "Please provide a comprehensive answer based on the context above.")%string.

(** The fallback loop over [enumerate(relevant_chunks[:3], 1)]. *)
Fixpoint fallback_lines (i : nat) (cs : list search_result) (answer : string)
  : string :=
  match cs with
  | [] => answer
  | chunk :: rest =>
      fallback_lines (S i) rest
        (answer ++ str_of_nat i ++ ". From " ++ r_document_name chunk ++ ": "
           ++ take 200 (r_content chunk) ++ "..." ++ nl ++ nl)%string
  end.

Definition fallback_answer (question : string) (relevant_chunks : list search_result)
  : string :=
  fallback_lines 1 (firstn 3 relevant_chunks)
    ("Based on the available sources, here are the most relevant excerpts related to '"
       ++ question ++ "':" ++ nl ++ nl)%string.

Definition source_of (chunk : search_result) : source :=
  {| s_document := r_document_name chunk;
     s_type := r_document_type chunk;
     similarity := similarity_score chunk;
     excerpt :=
       if Nat.ltb 200 (String.length (r_content chunk))
       then (take 200 (r_content chunk) ++ "...")%string
       else r_content chunk |}.

Definition answer_question `{Collaborators} (question : string) (context_limit : Z)
  : py (state vec) answer_result :=
  try_except
    (relevant_chunks <- semantic_search question context_limit ;;
     match relevant_chunks with
     | [] => ret (mk_answer_result no_information [] 0%Q)
     | top :: _ =>
         let context := context_of relevant_chunks in
         answer <-
           (if truthy openai_api_key
            then
              response <- call (chat_completion system_prompt
                                  (user_prompt context question)) ;;
              ret (strip response)
            else ret (fallback_answer question relevant_chunks)) ;;
         ret (mk_answer_result answer (map source_of relevant_chunks)
                (py_min (similarity_score top) 1%Q))
     end)
    (fun _ => ret (mk_answer_result error_answer [] 0%Q)).

End ScriblProductionSystem.

(** ** [setup-vector-db.py]: class [VectorDBSetup]

    Its methods have no exception handler: what a collaborator raises
    reaches the caller. *)

Module VectorDBSetup.
Import PyStr Py.
Local Open Scope py_scope.

(** [s.split()]: the maximal runs of characters that are not white
    space; [cur] is the run being read. *)
Fixpoint split_ws (s : string) (cur : string) : list string :=
  match s with
  | EmptyString => if truthy cur then [cur] else []
  | String c r =>
      if is_space c
      then if truthy cur then cur :: split_ws r "" else split_ws r ""
      else split_ws r (cur ++ String c EmptyString)%string
  end.

(** [l[i:j]] for arbitrary integers. *)
Definition slice {A : Type} (i j : Z) (l : list A) : list A :=
  let n := Z.of_nat (List.length l) in
  let norm x := if (x <? 0)%Z then Z.max (n + x) 0 else Z.min x n in
  let a := norm i in
  let b := norm j in
  firstn (Z.to_nat (b - a)) (skipn (Z.to_nat a) l).

(** The loop [for i in range(0, len(words), step)] for [step > 0], from
    the value [i] on; it runs at most [len(words)] times. *)
Fixpoint chunk_loop (fuel : nat) (words : list string) (chunk_size step i : Z)
  : list string :=
  match fuel with
  | O => []
  | S fuel' =>
      if (i <? Z.of_nat (List.length words))%Z
      then
        let chunk := join " " (slice i (i + chunk_size) words) in
        if (i + chunk_size >=? Z.of_nat (List.length words))%Z
        then [chunk]
        else chunk :: chunk_loop fuel' words chunk_size step (i + step)%Z
      else []
  end.

Definition chunk_text {S : Type} (text : string) (chunk_size overlap : Z)
  : py S (list string) :=
  let words := split_ws text "" in
  let step := (chunk_size - overlap)%Z in
  if (step =? 0)%Z then raise "ValueError: range() arg 3 must not be zero"
  else if (step <? 0)%Z then ret []
  else ret (chunk_loop (List.length words) words chunk_size step 0).

(** The keys of a document are all required. *)
Record document : Type := mk_document {
  id : string;
  name : string;
  type : string;
  content : string
}.

Record metadata : Type := mk_metadata {
  doc_id : string;
  chunk_id : string;
  chunk_index : nat;
  document_name : string;
  document_type : string;
  m_content : string
}.

Record state (V : Type) : Type := mk_state {
  index : option (Faiss.index V);
  document_metadata : list metadata
}.
Arguments mk_state {V} _ _.
Arguments index {V} _.
Arguments document_metadata {V} _.

Definition initial {V : Type} : state V := mk_state None [].

(** [create_faiss_index] *)
Definition create_faiss_index `{Collaborators} : Faiss.index vec :=
  let index := Faiss.IndexFlatIP in
  Faiss.IndexIDMap index.

(** The accumulators [texts] and [doc_ids] of [add_documents]. *)
Definition acc : Type := (list string * list string)%type.

(** The inner loop over [enumerate(chunks)], from position [i] on. *)
Fixpoint add_chunks `{Collaborators} (d : document) (i : nat) (chunks : list string)
    (a : acc) : py (state vec) acc :=
  match chunks with
  | [] => ret a
  | chunk :: rest =>
      let cid := (id d ++ "_chunk_" ++ str_of_nat i)%string in
      st <- get ;;
      put (mk_state (index st)
             (document_metadata st
                ++ [mk_metadata (id d) cid i (name d) (type d) chunk])) ;;;
      add_chunks d (S i) rest (fst a ++ [chunk], snd a ++ [cid])
  end.

(** The outer loop over [documents]. *)
Fixpoint add_docs `{Collaborators} (documents : list document) (a : acc)
  : py (state vec) acc :=
  match documents with
  | [] => ret a
  | d :: rest =>
      chunks <- chunk_text (content d) 500 50 ;;
      a' <- add_chunks d 0 chunks a ;;
      add_docs rest a'
  end.

Definition add_documents `{Collaborators} (documents : list document)
  : py (state vec) unit :=
  st <- get ;;
  ix <- match index st with
        | None =>
            put (mk_state (Some create_faiss_index) (document_metadata st)) ;;;
            ret create_faiss_index
        | Some ix => ret ix
        end ;;
  a <- add_docs documents ([], []) ;;
  let texts := fst a in
  let doc_ids := snd a in
  embeddings <- call (encode texts) ;;
  embeddings <- call (normalize embeddings) ;;
  let ids := map numeric_id doc_ids in
  ix' <- call (Faiss.add_with_ids ix embeddings ids) ;;
  st <- get ;;
  put (mk_state (Some ix') (document_metadata st)).

Record search_result : Type := mk_search_result {
  r_content : string;
  r_document_name : string;
  r_document_type : string;
  r_chunk_index : nat;
  similarity_score : Q
}.

Definition result_of (m : metadata) (score : Q) : search_result :=
  {| r_content := m_content m;
     r_document_name := document_name m;
     r_document_type := document_type m;
     r_chunk_index := chunk_index m;
     similarity_score := score |}.

(** The inner loop: the first record with
    [hash(metadata['chunk_id']) % (2**31) == idx]. *)
Definition lookup `{Collaborators} (mds : list metadata) (idx : Z) : option metadata :=
  find (fun m => Z.eqb (numeric_id (chunk_id m)) idx) mds.

Fixpoint collect `{Collaborators} (mds : list metadata) (hits : list (Q * Z))
  : list search_result :=
  match hits with
  | [] => []
  | (score, idx) :: rest =>
      (if negb (Z.eqb idx (-1))
       then match lookup mds idx with
            | Some m => [result_of m score]
            | None => []
            end
       else [])
      ++ collect mds rest
  end.

Definition search_similar `{Collaborators} (query : string) (k : Z)
  : py (state vec) (list search_result) :=
  st <- get ;;
  match index st with
  | None => ret []
  | Some ix =>
      query_embedding <- call (encode [query]) ;;
      query_embedding <- call (normalize query_embedding) ;;
      found <- call (index_search ix query_embedding k) ;;
      scores0 <- item0 (fst found) ;;
      indices0 <- item0 (snd found) ;;
      ret (collect (document_metadata st) (combine scores0 indices0))
  end.

End VectorDBSetup.

(** ** Further string primitives *)

Module PyText.
Import PyStr.

(** [s.split(c)] for a one-character separator. *)
Fixpoint split_char (c : ascii) (s : string) : list string :=
  match s with
  | EmptyString => [EmptyString]
  | String x r =>
      if Ascii.eqb x c then EmptyString :: split_char c r
      else match split_char c r with
           | p :: ps => String x p :: ps
           | [] => [String x EmptyString]
           end
  end.

(** [s.split()] *)
Definition words (s : string) : list string := VectorDBSetup.split_ws s "".

(** [s.startswith(p)] *)
Definition startswith (p s : string) : bool := String.prefix p s.

(** [sub in s] *)
Fixpoint contains (sub s : string) : bool :=
  String.prefix sub s
  || match s with
     | EmptyString => false
     | String _ r => contains sub r
     end.

(** [s.isdigit()] on the code points below 256: the ASCII digits and the
    superscripts one, two and three. *)
Definition is_digit (c : ascii) : bool :=
  let n := nat_of_ascii c in
  (Nat.leb 48 n && Nat.leb n 57) || Nat.eqb n 178 || Nat.eqb n 179 || Nat.eqb n 185.

Fixpoint all_digits (s : string) : bool :=
  match s with
  | EmptyString => true
  | String c r => is_digit c && all_digits r
  end.

Definition isdigit (s : string) : bool := truthy s && all_digits s.

(** [s.lower()] on the code points below 256: the ASCII capitals and the
    Latin-1 capitals (all of 192..222 but the multiplication sign 215) move
    up by 32. *)
Definition lower_char (c : ascii) : ascii :=
  let n := nat_of_ascii c in
  if (Nat.leb 65 n && Nat.leb n 90)
     || (Nat.leb 192 n && Nat.leb n 222 && negb (Nat.eqb n 215))
  then ascii_of_nat (n + 32)
  else c.

Fixpoint lower (s : string) : string :=
  match s with
  | EmptyString => EmptyString
  | String c r => String (lower_char c) (lower r)
  end.

(** [s.title()] for an ASCII string, which is all it is applied to: a
    letter that follows a letter is made small, any other letter is made a
    capital. *)
Definition is_ascii_letter (c : ascii) : bool :=
  let n := nat_of_ascii c in
  (Nat.leb 65 n && Nat.leb n 90) || (Nat.leb 97 n && Nat.leb n 122).

Definition upper_ascii (c : ascii) : ascii :=
  let n := nat_of_ascii c in
  if Nat.leb 97 n && Nat.leb n 122 then ascii_of_nat (n - 32) else c.

Fixpoint title_from (previous_is_cased : bool) (s : string) : string :=
  match s with
  | EmptyString => EmptyString
  | String c r =>
      String (if previous_is_cased then lower_char c else upper_ascii c)
        (title_from (is_ascii_letter c) r)
  end.

Definition title (s : string) : string := title_from false s.

End PyText.

(** ** [setup-production-system.py]: subtitles and fallback key points *)

Module ScriblText.
Import PyStr PyText.

(** The test of the loop in [parse_subtitle_content], on the stripped
    line. *)
Definition keep_line (line : string) : bool :=
  truthy line
  && negb (startswith "<" line)
  && negb (contains "-->" line)
  && negb (isdigit line).

Fixpoint text_lines (lines : list string) : list string :=
  match lines with
  | [] => []
  | line :: rest =>
      let line := strip line in
      if keep_line line then line :: text_lines rest else text_lines rest
  end.

Definition parse_subtitle_content (subtitle_text : string) : string :=
  join " " (text_lines (split_char "010"%char subtitle_text)).

Definition important_terms : list string :=
  ["artificial intelligence"; "machine learning"; "deep learning";
   "neural network"; "algorithm"; "data"; "model"; "training";
   "analysis"; "research"; "study"; "method"; "approach";
   "system"; "technology"; "innovation"; "development";
   "conclusion"; "result"; "finding"; "discovery"].

Definition boost_patterns : list string :=
  ["important"; "key"; "significant"; "crucial"; "main"].

Definition default_key_points : list string :=
  ["Document contains valuable information";
   "Content covers relevant topics";
   "Material provides insights for analysis";
   "Source contributes to research knowledge"].

(** The inner loop over the important terms. *)
Fixpoint term_score (terms : list string) (sentence_lower : string) (score : nat)
  : nat :=
  match terms with
  | [] => score
  | term :: rest =>
      term_score rest sentence_lower
        (if contains term sentence_lower
         then score + List.length (words term)
         else score)
  end.

Definition sentence_score (sentence : string) : nat :=
  let sentence_lower := lower sentence in
  let score := term_score important_terms sentence_lower 0 in
  if existsb (fun pattern => contains pattern sentence_lower) boost_patterns
  then score + 2
  else score.

(** The loop over the sentences. *)
Fixpoint scored_sentences (sentences : list string) : list (string * nat) :=
  match sentences with
  | [] => []
  | sentence :: rest =>
      let score := sentence_score sentence in
      if Nat.ltb 0 score && Nat.ltb 5 (List.length (words sentence))
      then (strip sentence, score) :: scored_sentences rest
      else scored_sentences rest
  end.

(** [l.sort(key=lambda x: x[1], reverse=True)]: a stable sort by
    descending score; a pair goes behind the pairs of at least its score
    that are already placed. *)
Fixpoint insert_desc (x : string * nat) (l : list (string * nat))
  : list (string * nat) :=
  match l with
  | [] => [x]
  | y :: r => if Nat.ltb (snd y) (snd x) then x :: y :: r else y :: insert_desc x r
  end.

Definition sort_desc (l : list (string * nat)) : list (string * nat) :=
  fold_left (fun sorted x => insert_desc x sorted) l [].

Definition extract_fallback_key_points (content : string) : list string :=
  let sentences := split_dot content in
  let key_points := map fst (firstn 6 (sort_desc (scored_sentences sentences))) in
  match key_points with
  | [] => default_key_points
  | _ => key_points
  end.

End ScriblText.

(** ** [production-setup.py]: key points *)

Module ProductionText.
Import PyStr PyText.

Definition important_terms : list string :=
  ["artificial intelligence"; "machine learning"; "deep learning";
   "neural network"; "algorithm"; "data"; "model"; "training";
   "analysis"; "research"; "study"; "method"; "approach";
   "system"; "technology"; "innovation"; "development"].

(** The loop of [extract_key_points] over the terms. *)
Fixpoint found_terms (terms : list string) (content : string) (found : list string)
  : list string :=
  match terms with
  | [] => found
  | term :: rest =>
      found_terms rest content
        (if contains term (lower content) then found ++ [title term] else found)
  end.

Definition extract_key_points (content : string) : list string :=
  firstn 6 (found_terms important_terms content []).

End ProductionText.

(** ** [production-setup.py]: persistence

    [save_index] and [load_index] touch three files per path prefix:
    [<prefix>.faiss], [<prefix>_metadata.json] and [<prefix>_stats.json].
    The three suffixes end differently, so no two of these paths coincide,
    and a path determines its prefix: the part of the disk that the methods
    can see is three partial maps from prefixes to file contents.  A file
    holds a value that was written, or bytes that its reader rejects.
    Writing to a locked file raises and changes nothing.  The time stamp of
    the statistics is left out. *)

Module ProductionPersistence.
Import PyStr Py ProductionVectorDB.
Local Open Scope py_scope.

Record stats : Type := mk_stats {
  total_chunks : nat;
  total_documents : nat;
  embedding_dimension : Z;
  index_type : string
}.

Inductive file (A : Type) : Type :=
| Stored (a : A)
| Unreadable.
Arguments Stored {A} a.
Arguments Unreadable {A}.

Record disk (V : Type) : Type := mk_disk {
  faiss_file : string -> option (file (Faiss.index V));
  metadata_file : string -> option (file (list metadata));
  stats_file : string -> option (file stats);
  faiss_locked : string -> bool;
  metadata_locked : string -> bool;
  stats_locked : string -> bool
}.
Arguments mk_disk {V} _ _ _ _ _ _.
Arguments faiss_file {V} _ _.
Arguments metadata_file {V} _ _.
Arguments stats_file {V} _ _.
Arguments faiss_locked {V} _ _.
Arguments metadata_locked {V} _ _.
Arguments stats_locked {V} _ _.

Definition update {A : Type} (f : string -> option A) (k : string) (v : A)
  : string -> option A :=
  fun p => if String.eqb p k then Some v else f p.

(** [faiss.write_index(index, f"{filepath}.faiss")] *)
Definition write_index {V : Type} (ix : Faiss.index V) (filepath : string)
  : py (disk V) unit :=
  fun dk =>
    if faiss_locked dk filepath then (Raises "could not open file for writing", dk)
    else (Returns tt,
          mk_disk (update (faiss_file dk) filepath (Stored ix)) (metadata_file dk)
            (stats_file dk) (faiss_locked dk) (metadata_locked dk) (stats_locked dk)).

(** [with open(f"{filepath}_metadata.json", 'w') as f: json.dump(md, f)] *)
Definition dump_metadata {V : Type} (md : list metadata) (filepath : string)
  : py (disk V) unit :=
  fun dk =>
    if metadata_locked dk filepath then (Raises "PermissionError", dk)
    else (Returns tt,
          mk_disk (faiss_file dk) (update (metadata_file dk) filepath (Stored md))
            (stats_file dk) (faiss_locked dk) (metadata_locked dk) (stats_locked dk)).

(** [with open(f"{filepath}_stats.json", 'w') as f: json.dump(stats, f)] *)
Definition dump_stats {V : Type} (s : stats) (filepath : string) : py (disk V) unit :=
  fun dk =>
    if stats_locked dk filepath then (Raises "PermissionError", dk)
    else (Returns tt,
          mk_disk (faiss_file dk) (metadata_file dk)
            (update (stats_file dk) filepath (Stored s))
            (faiss_locked dk) (metadata_locked dk) (stats_locked dk)).

(** Reading a file that exists: [faiss.read_index], [json.load]. *)
Definition read {S A : Type} (f : file A) : py S A :=
  match f with
  | Stored a => ret a
  | Unreadable => raise "could not read file"
  end.

(** [len(set(m['doc_id'] for m in self.chunk_metadata))] *)
Definition distinct_documents (md : list metadata) : nat :=
  List.length (nodup string_dec (map doc_id md)).

(** [save_index]; [dimension] is the field [self.dimension]. *)
Definition save_index {V : Type} (dimension : Z) (st : state V) (filepath : string)
  : py (disk V) unit :=
  try_except
    (match index st with
     | Some ix => write_index ix filepath
     | None => ret tt
     end ;;;
     dump_metadata (chunk_metadata st) filepath ;;;
     let stats :=
       {| total_chunks := List.length (chunk_metadata st);
          total_documents := distinct_documents (chunk_metadata st);
          embedding_dimension := dimension;
          index_type := "HNSW" |} in
     dump_stats stats filepath)
    (fun _ => ret tt).

(** [load_index]; the disk is only read. *)
Definition load_index {V : Type} (dk : disk V) (filepath : string)
  : py (state V) bool :=
  try_except
    (match faiss_file dk filepath with
     | Some f =>
         ix <- read f ;;
         st <- get ;;
         put (mk_state (Some ix) (chunk_metadata st)) ;;;
         match metadata_file dk filepath with
         | Some f =>
             md <- read f ;;
             st <- get ;;
             put (mk_state (index st) md)
         | None => ret tt
         end ;;;
         match stats_file dk filepath with
         | Some f => stats <- read f ;; ret tt
         | None => ret tt
         end ;;;
         ret true
     | None => ret false
     end)
    (fun _ => ret false).

End ProductionPersistence.

(** ** Vocabulary of the properties *)

(** A string that starts, and one that ends, with a character that is not
    white space; a trimmed string does both. *)
Definition head_ok (s : string) : Prop :=
  match s with
  | EmptyString => False
  | String c _ => PyStr.is_space c = false
  end.

Fixpoint last_ok (s : string) : Prop :=
  match s with
  | EmptyString => False
  | String c EmptyString => PyStr.is_space c = false
  | String _ r => last_ok r
  end.

Definition trimmed (s : string) : Prop := head_ok s /\ last_ok s.

(** The state of the chunker's loop after the first [n] of the sentences
    [ss]. *)
Definition state_after (chunk_size overlap : Z) (ss : list string) (n : nat)
  : Chunker.loop_state :=
  fold_left (Chunker.add_sentence chunk_size overlap) (firstn n ss) Chunker.init_state.




(** What the index hands back for a query: the first row of scores zipped
    with the first row of ids, or the exception raised on the way. *)
Definition index_hits `{Collaborators} (ix : Faiss.index vec) (query : string) (k : Z)
  : Py.outcome (list (Q * Z)) :=
  match encode [query] with
  | Py.Raises e => Py.Raises e
  | Py.Returns e1 =>
      match normalize e1 with
      | Py.Raises e => Py.Raises e
      | Py.Returns e2 =>
          match index_search ix e2 k with
          | Py.Raises e => Py.Raises e
          | Py.Returns (s0 :: _, i0 :: _) => Py.Returns (combine s0 i0)
          | Py.Returns _ => Py.Raises "IndexError"
          end
      end
  end.

Module ProductionVectorDBSpec.
Import Py ProductionVectorDB.

(** The external ids held by the index, in insertion order. *)
Definition index_ids {V : Type} (st : state V) : list Z :=
  match index st with
  | None => []
  | Some ix => Faiss.ids ix
  end.

Definition index_size {V : Type} (st : state V) : nat :=
  match index st with
  | None => 0
  | Some ix => Faiss.ntotal ix
  end.

Definition embedding_ids {V : Type} (st : state V) : list Z :=
  map embedding_id (chunk_metadata st).

(** The states of an object on which only [process_document_async] was
    called since [__init__]. *)
Inductive reachable `{Collaborators} : state vec -> Prop :=
| reach_init : reachable initial
| reach_process d st :
    reachable st -> reachable (snd (process_document_async d st)).

(** The hits that the loop of [semantic_search] turns into results: the
    id is not the one of an empty slot and some record carries it. *)
Definition resolves (mds : list metadata) (hit : Q * Z) : bool :=
  negb (Z.eqb (snd hit) (-1))
  && existsb (fun m => Z.eqb (embedding_id m) (snd hit)) mds.

(** A result that answers a hit: it carries the score of the hit and the
    fields of a stored record whose embedding id is the id of the hit. *)
Definition answers (mds : list metadata) (r : search_result) (hit : Q * Z) : Prop :=
  exists m, In m mds /\ embedding_id m = snd hit /\ r = result_of m (fst hit).

(** The index in place, if any, is one that [create_optimized_index]
    configured. *)
Definition configured `{Collaborators} (st : state vec) : Prop :=
  forall ix, index st = Some ix
             -> Faiss.sub_index ix = Faiss.sub_index create_optimized_index.

End ProductionVectorDBSpec.

Module ScriblProductionSystemSpec.
Import Py ScriblProductionSystem.

Definition index_ids {V : Type} (st : state V) : list Z :=
  match index st with
  | None => []
  | Some ix => Faiss.ids ix
  end.

Definition index_size {V : Type} (st : state V) : nat :=
  match index st with
  | None => 0
  | Some ix => Faiss.ntotal ix
  end.

Definition embedding_ids {V : Type} (st : state V) : list Z :=
  map embedding_id (chunk_metadata st).

Inductive reachable `{Collaborators} `{Extractors} : state vec -> Prop :=
| reach_init : reachable initial
| reach_process d st :
    reachable st -> reachable (snd (process_document_async d st)).

Definition resolves (mds : list metadata) (hit : Q * Z) : bool :=
  negb (Z.eqb (snd hit) (-1))
  && existsb (fun m => Z.eqb (embedding_id m) (snd hit)) mds.

Definition answers (mds : list metadata) (r : search_result) (hit : Q * Z) : Prop :=
  exists m, In m mds /\ embedding_id m = snd hit /\ r = result_of m (fst hit).

Definition configured `{Collaborators} (st : state vec) : Prop :=
  forall ix, index st = Some ix
             -> Faiss.sub_index ix = Faiss.sub_index create_optimized_index.

End ScriblProductionSystemSpec.

Module VectorDBSetupSpec.
Import Py VectorDBSetup.

(** The word windows that [chunk_text] joins: the loop of [chunk_loop]
    before the join. *)
Fixpoint window_loop (fuel : nat) (words : list string) (chunk_size step i : Z)
  : list (list string) :=
  match fuel with
  | O => []
  | S fuel' =>
      if (i <? Z.of_nat (List.length words))%Z
      then
        let window := slice i (i + chunk_size) words in
        if (i + chunk_size >=? Z.of_nat (List.length words))%Z
        then [window]
        else window :: window_loop fuel' words chunk_size step (i + step)%Z
      else []
  end.

Definition windows (text : string) (chunk_size overlap : Z) : list (list string) :=
  let words := split_ws text "" in
  window_loop (List.length words) words chunk_size (chunk_size - overlap) 0.

(** What [add_documents] derives from one document: its chunks, their
    chunk ids and their metadata records. *)
Definition doc_chunks (d : document) : list string :=
  map (PyStr.join " ") (windows (content d) 500 50).

Definition doc_chunk_ids_from (d : document) (i n : nat) : list string :=
  map (fun k => (id d ++ "_chunk_" ++ PyStr.str_of_nat k)%string) (seq i n).

Definition doc_chunk_ids (d : document) : list string :=
  doc_chunk_ids_from d 0 (List.length (doc_chunks d)).

Fixpoint doc_records_from (d : document) (i : nat) (chunks : list string)
  : list metadata :=
  match chunks with
  | [] => []
  | chunk :: rest =>
      mk_metadata (id d) (id d ++ "_chunk_" ++ PyStr.str_of_nat i)%string i
        (name d) (type d) chunk
        :: doc_records_from d (S i) rest
  end.

Definition doc_records (d : document) : list metadata :=
  doc_records_from d 0 (doc_chunks d).

Definition index_rows `{Collaborators} (st : state vec) : Faiss.index vec :=
  match index st with
  | None => create_faiss_index
  | Some ix => ix
  end.

End VectorDBSetupSpec.

(** ** Concrete collaborators and stores *)

Module Sample.
Import Py.

(** A deterministic stand-in for the seeded built-in [hash]. *)
Fixpoint toy_hash_from (h : Z) (s : string) : Z :=
  match s with
  | EmptyString => h
  | String c r => toy_hash_from (h * 31 + Z.of_nat (nat_of_ascii c))%Z r
  end.

(** The search of a stand-in index whose vectors carry no data: one row
    of scores and one row of ids, as [answer] gives them for the index. *)
Definition toy_search (answer : Faiss.index unit -> list Q * list Z)
    (ix : Faiss.index unit) (x : list unit) (k : Z)
  : outcome (list (list Q) * list (list Z)) :=
  Returns ([fst (answer ix)], [snd (answer ix)]).

(** Every stored row is reported, at the distance [c]. *)
Definition constant_row (c : Q) (ix : Faiss.index unit) : list Q * list Z :=
  (map (fun _ => c) (Faiss.rows ix), Faiss.ids ix).



Lemma toy_search_L2 (answer : Faiss.index unit -> list Q * list Z) :
  (forall ix, Faiss.distances (fst (answer ix))) ->
  forall ix x k D I,
    Faiss.metric_type (Faiss.sub_index ix) = Faiss.METRIC_L2 ->
    toy_search answer ix x k = Returns (D, I) ->
    Forall Faiss.distances D.
Proof.
  intros Ha ix x k D I _ H. unfold toy_search in H. inversion H; subst.
  constructor; [apply Ha | constructor].
Qed.

Lemma constant_row_distances (c : Q) :
  (0 <= c)%Q -> forall ix, Faiss.distances (fst (constant_row c ix)).
Proof.
  intros Hc ix. unfold constant_row. simpl.
  induction (Faiss.rows ix) as [|r l [IH1 IH2]];
    [split; constructor |].
  split; simpl.
  - constructor; assumption.
  - constructor; [exact IH2 |].
    apply Forall_forall. intros b Hb. apply in_map_iff in Hb.
    destruct Hb as [_ [<- _]]. apply Qle_refl.
Qed.




Lemma half_is_a_distance : (0 <= 1 # 2)%Q.
Proof. unfold Qle. simpl. lia. Qed.

(** Collaborators whose vectors carry no data; [lawful] says that the
    scores of the index are distances. *)
Definition toy_collaborators (enc : list string -> outcome (list unit))
    (answer : Faiss.index unit -> list Q * list Z)
    (lawful : forall ix, Faiss.distances (fst (answer ix)))
    (key : string) (chat : string -> string -> outcome string) : Collaborators :=
  {| vec := unit;
     hash := toy_hash_from 7;
     encode := enc;
     normalize := fun m => Returns m;
     index_search := toy_search answer;
     index_search_L2 := toy_search_L2 answer lawful;
     openai_api_key := key;
     chat_completion := chat |}.

(** The index reports every stored row at the distance 1/2; no API key. *)
Definition toy : Collaborators :=
  toy_collaborators (fun texts => Returns (map (fun _ => tt) texts))
    (constant_row (1 # 2)%Q) (constant_row_distances (1 # 2)%Q half_is_a_distance)
    "" (fun _ _ => Raises "no client configured").



(** An embedder that cannot be reached. *)
Definition toy_offline : Collaborators :=
  toy_collaborators (fun _ => Raises "embedder unreachable")
    (constant_row (1 # 2)%Q) (constant_row_distances (1 # 2)%Q half_is_a_distance)
    "" (fun _ _ => Raises "no client configured").


Definition toy_extractors : Extractors :=
  {| extract_pdf_content := fun _ =>
       mk_extraction_result "Sentence one. Sentence two." [("title", "Notes")] true None;
     extract_web_content := fun _ =>
       mk_extraction_result "" [] false (Some "HTTP 404");
     extract_youtube_content := fun _ =>
       mk_extraction_result "" [] false (Some "no captions") |}.

(** An index as [create_optimized_index] configures it, and one as
    [create_faiss_index] does, with the given rows in it. *)
Definition hnsw_index (rows : list (Z * unit)) : Faiss.index unit :=
  Faiss.mk_index (Faiss.sub_index (@ProductionVectorDB.create_optimized_index toy)) rows.

Definition flat_index (rows : list (Z * unit)) : Faiss.index unit :=
  Faiss.mk_index (Faiss.sub_index (@VectorDBSetup.create_faiss_index toy)) rows.

Definition doc1 : ProductionVectorDB.document :=
  ProductionVectorDB.mk_document (Some "d1") (Some "Notes") (Some "pdf")
    (Some "Sentence one. Sentence two. Sentence three.").


(** A dictionary without the key [id]. *)
Definition doc_without_id : ProductionVectorDB.document :=
  ProductionVectorDB.mk_document None (Some "Notes") (Some "pdf")
    (Some "Sentence one. Sentence two. Sentence three.").

(** The store after [doc1] was processed once, and twice. *)
Definition once : ProductionVectorDB.state unit :=
  snd (@ProductionVectorDB.process_document_async toy doc1 ProductionVectorDB.initial).

Definition twice : ProductionVectorDB.state unit :=
  snd (@ProductionVectorDB.process_document_async toy doc1 once).


Definition sdoc1 : ScriblProductionSystem.document :=
  ScriblProductionSystem.mk_document (Some "d1") (Some "pdf") (Some "notes.pdf") None
    (Some "Notes").

(** Dictionaries without the key [id], and without the key [type]. *)
Definition sdoc_without_id : ScriblProductionSystem.document :=
  ScriblProductionSystem.mk_document None (Some "pdf") (Some "notes.pdf") None
    (Some "Notes").

Definition sdoc_without_type : ScriblProductionSystem.document :=
  ScriblProductionSystem.mk_document (Some "d1") None (Some "notes.pdf") None
    (Some "Notes").

Definition sonce : ScriblProductionSystem.state unit :=
  snd (@ScriblProductionSystem.process_document_async toy toy_extractors sdoc1
         ScriblProductionSystem.initial).

Definition vdoc1 : VectorDBSetup.document :=
  VectorDBSetup.mk_document "d1" "Notes" "pdf" "Sentence one. Sentence two.".

Definition vonce : VectorDBSetup.state unit :=
  snd (@VectorDBSetup.add_documents toy [vdoc1] VectorDBSetup.initial).

Definition vtwice : VectorDBSetup.state unit :=
  snd (@VectorDBSetup.add_documents toy [vdoc1] vonce).

(** The store after [add_documents] was called with no document. *)
Definition vempty : VectorDBSetup.state unit :=
  snd (@VectorDBSetup.add_documents toy [] VectorDBSetup.initial).

End Sample.

(** * Properties *)

(** ** The primitives on concrete inputs *)

Example split_dot_pieces :
  PyStr.split_dot ".. a. . b.  c. " = ["."; "a"; ""; "b"; " c"; ""].
Proof. reflexivity. Qed.

Example strip_both_ends :
  PyStr.strip (String "009"%char "  a b " ++ String "010"%char "")%string = "a b".
Proof. reflexivity. Qed.

Example overlap_slice_default :
  Chunker.overlap_slice 64 ["a"; "b"; "c"] = ["b"; "c"]
  /\ Chunker.overlap_slice 64 ["a"] = [].
Proof. split; reflexivity. Qed.

Example overlap_slice_zero : Chunker.overlap_slice 0 ["a"; "b"] = ["a"; "b"].
Proof. reflexivity. Qed.

Example chunk_ids_of_three :
  ProductionVectorDB.chunk_ids_of "d1" 3 = ["d1_chunk_0"; "d1_chunk_1"; "d1_chunk_2"].
Proof. reflexivity. Qed.

Example chunk_text_words :
  @VectorDBSetup.chunk_text unit "  one two" 1 0 tt
  = (Py.Returns ["one"; "two"], tt).
Proof. reflexivity. Qed.

(** ** Strings *)

Section StringFacts.
Import PyStr.

Lemma append_assoc (a b c : string) : ((a ++ b) ++ c = a ++ (b ++ c))%string.
Proof. induction a as [|x a IH]; simpl; [reflexivity | now rewrite IH]. Qed.

Lemma head_ok_truthy s : head_ok s -> truthy s = true.
Proof. destruct s; simpl; [tauto | reflexivity]. Qed.

Lemma lstrip_head_ok s : truthy (lstrip s) = true -> head_ok (lstrip s).
Proof.
  induction s as [|c r IH]; simpl; [discriminate |].
  destruct (is_space c) eqn:E; [exact IH | intros _; exact E].
Qed.

Lemma head_ok_lstrip s : head_ok s -> lstrip s = s.
Proof. destruct s as [|c r]; simpl; [tauto | now intros ->]. Qed.

Lemma last_ok_rstrip s : last_ok s -> rstrip s = s.
Proof.
  induction s as [|c r IH]; [reflexivity |].
  destruct r as [|d r'].
  - simpl. now intros ->.
  - intros H. change (rstrip (String c (String d r')))
      with (match rstrip (String d r') with
            | EmptyString => if is_space c then EmptyString else String c EmptyString
            | r0 => String c r0
            end).
    rewrite (IH H). reflexivity.
Qed.

Lemma rstrip_last_ok s : truthy (rstrip s) = true -> last_ok (rstrip s).
Proof.
  induction s as [|c r IH]; simpl; [discriminate |].
  destruct (rstrip r) as [|d r'] eqn:E.
  - destruct (is_space c) eqn:Ec; simpl; [discriminate | now intros _].
  - intros _. apply (IH eq_refl).
Qed.

Lemma rstrip_head_ok s : head_ok s -> head_ok (rstrip s).
Proof.
  destruct s as [|c r]; simpl; [tauto |]. intros H.
  destruct (rstrip r); [rewrite H |]; exact H.
Qed.

(** What [strip] returns is empty or trimmed. *)
Lemma strip_trimmed s : truthy (strip s) = true -> trimmed (strip s).
Proof.
  unfold strip. intros H. split.
  - apply rstrip_head_ok, lstrip_head_ok.
    destruct (lstrip s); [discriminate H | reflexivity].
  - now apply rstrip_last_ok.
Qed.

Lemma trimmed_strip s : trimmed s -> strip s = s.
Proof.
  intros [Hh Hl]. unfold strip. rewrite (head_ok_lstrip _ Hh).
  now apply last_ok_rstrip.
Qed.

Lemma head_ok_app a b : head_ok a -> head_ok (a ++ b)%string.
Proof. destruct a; simpl; tauto. Qed.

Lemma last_ok_app a b : last_ok b -> last_ok (a ++ b)%string.
Proof.
  intros Hb. induction a as [|c a IH]; [exact Hb |].
  simpl. destruct (a ++ b)%string eqn:E; [| exact IH].
  destruct a; simpl in E; [subst b; destruct Hb | discriminate].
Qed.

Lemma trimmed_app a m b : trimmed a -> trimmed b -> trimmed (a ++ m ++ b)%string.
Proof.
  intros [Ha _] [_ Hb]. split.
  - now apply head_ok_app.
  - now do 2 apply last_ok_app.
Qed.

Lemma join_snoc sep l s :
  l <> [] -> join sep (l ++ [s]) = (join sep l ++ sep ++ s)%string.
Proof.
  induction l as [|a l IH]; [congruence |]. intros _.
  destruct l as [|b l].
  - reflexivity.
  - change (join sep ((a :: b :: l) ++ [s]))
      with (a ++ sep ++ join sep ((b :: l) ++ [s]))%string.
    rewrite IH by discriminate.
    change (join sep (a :: b :: l)) with (a ++ sep ++ join sep (b :: l))%string.
    now rewrite !append_assoc.
Qed.

Lemma join_trimmed sep l :
  l <> [] -> Forall trimmed l -> trimmed (join sep l).
Proof.
  induction l as [|a l IH]; [congruence |]. intros _ HF.
  inversion HF as [|? ? Ha Hl]; subst.
  destruct l as [|b l]; [exact Ha |].
  change (join sep (a :: b :: l)) with (a ++ sep ++ join sep (b :: l))%string.
  apply trimmed_app; [exact Ha | apply IH; [discriminate | exact Hl]].
Qed.

End StringFacts.

(** ** The chunker *)

Section ChunkerFacts.
Import PyStr Chunker.

Variables chunk_size overlap : Z.

(** The loop only sees the stripped, non-empty sentences. *)
Lemma run_sentences raws st :
  run chunk_size overlap raws st
  = fold_left (add_sentence chunk_size overlap)
      (filter truthy (map strip raws)) st.
Proof.
  revert st. induction raws as [|r raws IH]; intros st; [reflexivity |].
  unfold run in *. simpl. rewrite IH. unfold step.
  destruct (truthy (strip r)); reflexivity.
Qed.

Lemma sentences_trimmed text s : In s (sentences text) -> trimmed s.
Proof.
  unfold sentences. rewrite filter_In, in_map_iff.
  intros [[r [<- _]] Ht]. now apply strip_trimmed.
Qed.

(** The running chunk is never reset: it is the join of all the sentences
    read so far. *)
Lemma current_chunk_cumulative ss : forall st seen,
  Forall trimmed seen -> Forall trimmed ss ->
  current_chunk st = join ". " seen ->
  current_chunk (fold_left (add_sentence chunk_size overlap) ss st)
  = join ". " (seen ++ ss).
Proof.
  induction ss as [|s ss IH]; intros st seen Hseen Hss Hcur.
  - now rewrite app_nil_r.
  - inversion Hss as [|? ? Hs Hss']; subst. simpl.
    replace (seen ++ s :: ss) with ((seen ++ [s]) ++ ss)
      by now rewrite <- app_assoc.
    apply IH; [apply Forall_app; split; [exact Hseen | now constructor] | exact Hss' |].
    unfold add_sentence. simpl. rewrite Hcur.
    destruct seen as [|a seen]; [reflexivity |].
    rewrite (head_ok_truthy _ (proj1 (join_trimmed ". " (a :: seen) ltac:(discriminate) Hseen))).
    now rewrite join_snoc by discriminate.
Qed.

(** Hence every chunk closed inside the loop is the join of an initial
    segment of the sentences: closing a chunk does not start a new one. *)
Lemma closed_chunks_cumulative ss : forall st seen,
  Forall trimmed seen -> Forall trimmed ss ->
  current_chunk st = join ". " seen ->
  (forall c, In c (chunks st) ->
             exists n, 0 < n <= List.length seen
                       /\ Chunker.text c = join ". " (firstn n seen)) ->
  forall c, In c (chunks (fold_left (add_sentence chunk_size overlap) ss st)) ->
            exists n, 0 < n <= List.length (seen ++ ss)
                      /\ Chunker.text c = join ". " (firstn n (seen ++ ss)).
Proof.
  induction ss as [|s ss IH]; intros st seen Hseen Hss Hcur Hch c Hc.
  - rewrite app_nil_r. now apply Hch.
  - inversion Hss as [|? ? Hs Hss']; subst. simpl in Hc.
    replace (seen ++ s :: ss) with ((seen ++ [s]) ++ ss)
      by now rewrite <- app_assoc.
    assert (Hseen' : Forall trimmed (seen ++ [s]))
      by (apply Forall_app; split; [exact Hseen | now constructor]).
    assert (Hcur' : current_chunk (add_sentence chunk_size overlap st s)
                    = join ". " (seen ++ [s])).
    { exact (current_chunk_cumulative [s] st seen Hseen
               (Forall_cons _ Hs (Forall_nil _)) Hcur). }
    apply (IH _ (seen ++ [s]) Hseen' Hss' Hcur'); [| exact Hc].
    clear c Hc IH. intros c Hc.
    assert (Hold : forall c0, In c0 (chunks st) ->
              exists n, 0 < n <= List.length (seen ++ [s])
                        /\ Chunker.text c0 = join ". " (firstn n (seen ++ [s]))).
    { intros c0 Hc0. destruct (Hch c0 Hc0) as [n [Hn Ht]].
      exists n. rewrite length_app. split; [lia |].
      rewrite firstn_app. replace (n - List.length seen) with 0 by lia.
      simpl. now rewrite app_nil_r. }
    unfold add_sentence in Hc. simpl in Hc.
    destruct (_ && truthy (current_chunk st)) eqn:E; simpl in Hc;
      [| now apply Hold].
    apply in_app_or in Hc. destruct Hc as [Hc | [<- | []]]; [now apply Hold |].
    apply andb_prop in E. destruct E as [_ E]. rewrite Hcur in E.
    destruct seen as [|a seen]; [discriminate E |].
    exists (List.length (a :: seen)). rewrite length_app. split; [simpl; lia |].
    rewrite firstn_app, Nat.sub_diag, firstn_all.
    change (firstn 0 [s]) with (@nil string).
    rewrite app_nil_r. unfold chunk_of. simpl Chunker.text. rewrite Hcur.
    apply trimmed_strip, join_trimmed; [discriminate | exact Hseen].
Qed.

Lemma finish_last st :
  truthy (strip (current_chunk st)) = true ->
  In (chunk_of st) (finish st).
Proof.
  intros H. unfold finish. rewrite H. apply in_or_app. right. now left.
Qed.

(** The last chunk emitted holds the whole text. *)
Lemma last_chunk_is_everything text :
  sentences text <> [] ->
  exists c, In c (intelligent_chunking text chunk_size overlap)
            /\ Chunker.text c = join ". " (sentences text).
Proof.
  intros Hne.
  assert (HF : Forall trimmed (sentences text))
    by (apply Forall_forall; intros s; apply sentences_trimmed).
  pose proof (current_chunk_cumulative (sentences text) init_state []
                (Forall_nil _) HF eq_refl) as Hcur.
  simpl in Hcur.
  pose proof (join_trimmed ". " _ Hne HF) as Ht.
  unfold intelligent_chunking. rewrite run_sentences.
  fold (sentences text).
  set (st := fold_left _ _ _) in *.
  exists (chunk_of st). split.
  - apply finish_last. rewrite Hcur, (trimmed_strip _ Ht).
    apply head_ok_truthy, Ht.
  - simpl. rewrite Hcur. now apply trimmed_strip.
Qed.

(** X2.  Every chunk the chunker returns is the join of the first [n] sentences
    of the text, for some [n]: the chunks grow instead of being bounded. *)
Lemma chunks_are_cumulative text c :
  In c (intelligent_chunking text chunk_size overlap) ->
  exists n, 0 < n <= List.length (sentences text)
            /\ Chunker.text c = join ". " (firstn n (sentences text)).
Proof.
  assert (HF : Forall trimmed (sentences text))
    by (apply Forall_forall; intros s; apply sentences_trimmed).
  pose proof (current_chunk_cumulative (sentences text) init_state []
                (Forall_nil _) HF eq_refl) as Hcur.
  pose proof (closed_chunks_cumulative (sentences text) init_state []
                (Forall_nil _) HF eq_refl (fun c0 (H : In c0 []) => False_ind _ H))
    as Hch.
  simpl in Hcur, Hch.
  unfold intelligent_chunking. rewrite run_sentences. fold (sentences text).
  set (st := fold_left _ _ _) in *.
  unfold finish. intros Hc.
  assert (Hlast : truthy (strip (current_chunk st)) = true ->
            exists n, 0 < n <= List.length (sentences text)
                      /\ Chunker.text (chunk_of st)
                         = join ". " (firstn n (sentences text))).
  { intros Ht. rewrite Hcur in Ht.
    destruct (sentences text) as [|a l] eqn:E; [discriminate Ht |].
    exists (List.length (a :: l)). split; [simpl; lia |].
    rewrite firstn_all. unfold chunk_of. simpl Chunker.text. rewrite Hcur.
    apply trimmed_strip, join_trimmed; [discriminate | exact HF]. }
  destruct (truthy (strip (current_chunk st))).
  - apply in_app_or in Hc. destruct Hc as [Hc | [<- | []]];
      [now apply Hch | now apply Hlast].
  - now apply Hch.
Qed.

Lemma chunks_kept ss : forall st c,
  In c (chunks st) ->
  In c (chunks (fold_left (add_sentence chunk_size overlap) ss st)).
Proof.
  induction ss as [|s ss IH]; intros st c Hc; [exact Hc |].
  simpl. apply IH. unfold add_sentence. simpl.
  destruct (_ && _); simpl; [apply in_or_app; now left | exact Hc].
Qed.

Lemma length_append (a b : string) :
  String.length (a ++ b) = String.length a + String.length b.
Proof. induction a as [|x a IH]; simpl; [reflexivity | now rewrite IH]. Qed.

Lemma add_sentence_current st s :
  current_chunk (add_sentence chunk_size overlap st s)
  = if truthy (current_chunk st) then (current_chunk st ++ ". " ++ s)%string else s.
Proof. reflexivity. Qed.

Lemma add_sentence_closes st s :
  truthy (current_chunk st) = true ->
  (chunk_size < Z.of_nat (String.length (current_chunk st ++ ". " ++ s)))%Z ->
  chunks (add_sentence chunk_size overlap st s) = chunks st ++ [chunk_of st].
Proof.
  intros Ht Hlong. apply Z.gtb_lt in Hlong.
  unfold add_sentence. rewrite Ht. cbv beta iota zeta.
  now rewrite Hlong.
Qed.

(** The defect in general: as soon as the first two sentences together
    exceed the budget and a third sentence follows, the chunk made of these
    two sentences is emitted, although it is longer than [chunk_size]. *)
Lemma two_sentence_chunk_over_budget text s1 s2 s3 rest :
  sentences text = s1 :: s2 :: s3 :: rest ->
  (chunk_size < Z.of_nat (String.length (s1 ++ ". " ++ s2)))%Z ->
  exists c, In c (intelligent_chunking text chunk_size overlap)
            /\ Chunker.text c = (s1 ++ ". " ++ s2)%string
            /\ (chunk_size < Z.of_nat (String.length (Chunker.text c)))%Z.
Proof.
  intros E Hlong.
  assert (HF : Forall trimmed (sentences text))
    by (apply Forall_forall; intros s; apply sentences_trimmed).
  rewrite E in HF.
  inversion HF as [|? ? H1 HF1]; subst. inversion HF1 as [|? ? H2 HF2]; subst.
  pose proof (head_ok_truthy _ (proj1 H1)) as T1.
  pose proof (trimmed_app s1 ". " s2 H1 H2) as H12.
  pose proof (head_ok_truthy _ (proj1 H12)) as T12.
  set (st1 := add_sentence chunk_size overlap init_state s1).
  set (st2 := add_sentence chunk_size overlap st1 s2).
  set (st3 := add_sentence chunk_size overlap st2 s3).
  assert (C2 : current_chunk st2 = (s1 ++ ". " ++ s2)%string).
  { subst st2. rewrite add_sentence_current. subst st1.
    rewrite add_sentence_current. simpl. now rewrite T1. }
  assert (Ht : Chunker.text (chunk_of st2) = (s1 ++ ". " ++ s2)%string).
  { change (Chunker.text (chunk_of st2)) with (strip (current_chunk st2)).
    rewrite C2. now apply trimmed_strip. }
  exists (chunk_of st2). split; [| split; [exact Ht | now rewrite Ht]].
  unfold intelligent_chunking. rewrite run_sentences. fold (sentences text).
  rewrite E. simpl fold_left. fold st1. fold st2. fold st3.
  assert (H3 : In (chunk_of st2) (chunks st3)).
  { subst st3. rewrite add_sentence_closes.
    - apply in_or_app. right. now left.
    - now rewrite C2.
    - rewrite C2, (length_append (s1 ++ ". " ++ s2)). lia. }
  pose proof (chunks_kept rest st3 _ H3) as Hk.
  unfold finish.
  destruct (truthy (strip (current_chunk (fold_left _ rest st3))));
    [apply in_or_app; now left | exact Hk].
Qed.

End ChunkerFacts.

(** ** Lists *)

Section ListFacts.

Lemma map_fst_zip {A B : Type} (a : list A) : forall (b : list B),
  List.length b = List.length a -> map fst (combine a b) = a.
Proof.
  induction a as [|x a IH]; intros [|y b] E; simpl in *; try congruence.
  f_equal. apply IH. congruence.
Qed.

Lemma skipn_cons_nth {A : Type} (l : list A) : forall i x r d,
  skipn i l = x :: r -> nth i l d = x /\ skipn (S i) l = r /\ i < List.length l.
Proof.
  induction l as [|y l IH]; intros [|i] x r d E; simpl in *; try discriminate.
  - inversion E; subst. repeat split. lia.
  - destruct (IH i x r d E) as [H1 [H2 H3]]. repeat split; [exact H1 | exact H2 | lia].
Qed.





End ListFacts.

(** ** [ProductionVectorDB]: ingestion *)

Section ProductionIngestion.
Import PyStr Chunker Py ProductionVectorDB ProductionVectorDBSpec.
Context `{C : Collaborators}.

Lemma store_metadata_ids d did t zipped : forall i nids rest,
  skipn i nids = rest -> List.length zipped = List.length rest ->
  map embedding_id (store_metadata d did t i zipped nids) = rest.
Proof.
  induction zipped as [|[c cid] zipped IH]; intros i nids rest Hs Hl.
  - destruct rest; [reflexivity | discriminate].
  - destruct rest as [|x rest]; [discriminate |]. simpl.
    destruct (skipn_cons_nth _ _ _ _ 0%Z Hs) as [H1 [H2 _]].
    rewrite H1. f_equal. apply IH; [exact H2 | simpl in Hl; congruence].
Qed.

Lemma store_metadata_numeric d did t cs : forall i cids rest m,
  skipn i cids = rest ->
  In m (store_metadata d did t i (combine cs rest) (map numeric_id cids)) ->
  embedding_id m = numeric_id (chunk_id m).
Proof.
  induction cs as [|c cs IH]; intros i cids rest m Hs Hin; [destruct Hin |].
  destruct rest as [|cid rest]; [destruct Hin |]. simpl in Hin.
  destruct (skipn_cons_nth _ _ _ _ EmptyString Hs) as [H1 [H2 H3]].
  destruct Hin as [<- | Hin].
  - simpl. rewrite (nth_indep _ 0%Z (numeric_id EmptyString))
      by now rewrite length_map.
    now rewrite map_nth, H1.
  - now apply (IH (S i) cids rest m H2).
Qed.

(** Without the key [id] the call raises before anything else happens. *)
Lemma process_document_async_no_id (d : document) (st : state vec) :
  id d = None -> process_document_async d st = (Raises "'id'", st).
Proof. intros E. unfold process_document_async, bind, getitem. now rewrite E. Qed.

(** The effect of one call on a document with the key [id], branch by
    branch. *)
Lemma process_document_async_cases (d : document) (did : string) (st : state vec) :
  id d = Some did ->
  let content := dict_get (content d) "" in
  let doc_type := dict_get (type d) "unknown" in
  let chunks := intelligent_chunking content 512 64 in
  let chunk_ids := chunk_ids_of did (List.length chunks) in
  let numeric_ids := map numeric_id chunk_ids in
  let failed e := Error ("Failed to process document " ++ did ++ ": " ++ e)%string in
  let ix := match index st with Some ix => ix | None => create_optimized_index end in
  process_document_async d st =
  if negb (truthy content) then (Returns (Error "No content to process"), st)
  else
    match encode (map text chunks) with
    | Raises e => (Returns (failed e), st)
    | Returns e1 =>
        match normalize e1 with
        | Raises e => (Returns (failed e), st)
        | Returns e2 =>
            if Nat.eqb (List.length e2) (List.length numeric_ids)
            then (Returns (Completed did (List.length chunks) (List.length e2)),
                  mk_state
                    (Some (Faiss.mk_index (Faiss.sub_index ix)
                             (Faiss.rows ix ++ combine numeric_ids e2)))
                    (chunk_metadata st
                       ++ store_metadata d did doc_type 0 (combine chunks chunk_ids)
                            numeric_ids))
            else (Returns (failed "not same nb of vectors as ids"),
                  mk_state (Some ix) (chunk_metadata st))
        end
    end.
Proof.
  intros Hid cnt doc_type cks cids nids failed ix. unfold process_document_async.
  unfold bind at 1. rewrite Hid. cbn [getitem ret].
  fold cnt. destruct (negb (truthy cnt)); [reflexivity |].
  unfold try_except, bind, call, get, put, ret. fold cks.
  destruct (encode (map text cks)) as [e1|e]; [| reflexivity].
  destruct (normalize e1) as [e2|e]; [| reflexivity].
  fold cids. fold nids. unfold Faiss.add_with_ids.
  destruct st as [[ix0|] mds]; simpl; subst ix; simpl;
    destruct (Nat.eqb (List.length e2) (List.length nids)); reflexivity.
Qed.

Lemma chunk_ids_length doc_id n : List.length (chunk_ids_of doc_id n) = n.
Proof. unfold chunk_ids_of. now rewrite length_map, length_seq. Qed.

Lemma process_preserves_ids d st :
  index_ids st = embedding_ids st ->
  index_ids (snd (process_document_async d st))
  = embedding_ids (snd (process_document_async d st)).
Proof.
  intros Hc. destruct (id d) as [did|] eqn:Hid;
    [| now rewrite process_document_async_no_id].
  rewrite (process_document_async_cases d did st Hid).
  destruct (negb _); [exact Hc |].
  destruct (encode _) as [e1|e]; [| exact Hc].
  destruct (normalize e1) as [e2|e]; [| exact Hc].
  destruct (Nat.eqb_spec (List.length e2)
              (List.length (map numeric_id
                 (chunk_ids_of did
                    (List.length (intelligent_chunking (dict_get (content d) "") 512 64))))))
    as [E|E]; unfold index_ids, embedding_ids in *; simpl.
  - unfold Faiss.ids in *. simpl. rewrite !map_app. f_equal.
    + destruct (index st); [exact Hc |].
      simpl in Hc |- *. exact Hc.
    + rewrite map_fst_zip by exact E. symmetry.
      apply store_metadata_ids; [reflexivity |].
      rewrite length_combine, length_map, chunk_ids_length. lia.
  - destruct (index st); [exact Hc |]. exact Hc.
Qed.

Lemma process_preserves_numeric d st :
  (forall m, In m (chunk_metadata st) -> embedding_id m = numeric_id (chunk_id m)) ->
  forall m, In m (chunk_metadata (snd (process_document_async d st))) ->
            embedding_id m = numeric_id (chunk_id m).
Proof.
  intros Hc m. destruct (id d) as [did|] eqn:Hid;
    [| rewrite process_document_async_no_id by exact Hid; apply Hc].
  rewrite (process_document_async_cases d did st Hid).
  destruct (negb _); [apply Hc |].
  destruct (encode _) as [e1|e]; [| apply Hc].
  destruct (normalize e1) as [e2|e]; [| apply Hc].
  destruct (Nat.eqb _ _); simpl; [| apply Hc].
  rewrite in_app_iff. intros [Hin | Hin]; [now apply Hc |].
  eapply store_metadata_numeric; [| exact Hin]. reflexivity.
Qed.


Lemma reachable_invariant st :
  reachable st ->
  index_ids st = embedding_ids st
  /\ (forall m, In m (chunk_metadata st) -> embedding_id m = numeric_id (chunk_id m)).
Proof.
  induction 1 as [|d st Hr [IH1 IH2]].
  - split; [reflexivity | intros m []].
  - split; [now apply process_preserves_ids | now apply process_preserves_numeric].
Qed.



End ProductionIngestion.

(** ** [ProductionVectorDB]: retrieval *)

Section ProductionRetrieval.
Import PyStr Py ProductionVectorDB ProductionVectorDBSpec.
Context `{C : Collaborators}.

Lemma search_block_hits ix query k (st : state vec) :
  search_block ix query k st
  = (match index_hits ix query k with
     | Returns hits => Returns (collect (chunk_metadata st) hits)
     | Raises e => Raises e
     end, st).
Proof.
  unfold search_block, index_hits, bind, call, get, ret, item0, raise.
  destruct (encode [query]) as [e1|e]; [| reflexivity].
  destruct (normalize e1) as [e2|e]; [| reflexivity].
  destruct (index_search ix e2 k) as [[[|s0 ss] [|i0 ii]]|e]; reflexivity.
Qed.

(** The result of a search, branch by branch; the fields are untouched. *)
Lemma semantic_search_cases query k (st : state vec) :
  semantic_search query k st
  = (match index st with
     | None => Returns []
     | Some ix =>
         if Nat.eqb (List.length (chunk_metadata st)) 0 then Returns []
         else match index_hits ix query k with
              | Returns hits => Returns (collect (chunk_metadata st) hits)
              | Raises _ => Returns []
              end
     end, st).
Proof.
  unfold semantic_search, bind, get, ret.
  destruct (index st) as [ix|]; [| reflexivity].
  destruct (Nat.eqb _ 0); [reflexivity |].
  unfold try_except. rewrite search_block_hits.
  destruct (index_hits ix query k); reflexivity.
Qed.







End ProductionRetrieval.

(** ** [ScriblProductionSystem]: ingestion *)

Section ScriblIngestion.
Import PyStr Chunker Py ScriblProductionSystem ScriblProductionSystemSpec.
Context `{C : Collaborators} `{X : Extractors}.

Lemma scribl_store_metadata_ids d did t md zipped : forall i nids rest,
  skipn i nids = rest -> List.length zipped = List.length rest ->
  map embedding_id (store_metadata d did t md i zipped nids) = rest.
Proof.
  induction zipped as [|[c cid] zipped IH]; intros i nids rest Hs Hl.
  - destruct rest; [reflexivity | discriminate].
  - destruct rest as [|x rest]; [discriminate |]. simpl.
    destruct (skipn_cons_nth _ _ _ _ 0%Z Hs) as [H1 [H2 _]].
    rewrite H1. f_equal. apply IH; [exact H2 | simpl in Hl; congruence].
Qed.

Lemma scribl_store_metadata_numeric d did t md cs : forall i cids rest m,
  skipn i cids = rest ->
  In m (store_metadata d did t md i (combine cs rest) (map numeric_id cids)) ->
  embedding_id m = numeric_id (chunk_id m).
Proof.
  induction cs as [|c cs IH]; intros i cids rest m Hs Hin; [destruct Hin |].
  destruct rest as [|cid rest]; [destruct Hin |]. simpl in Hin.
  destruct (skipn_cons_nth _ _ _ _ EmptyString Hs) as [H1 [H2 H3]].
  destruct Hin as [<- | Hin].
  - simpl. rewrite (nth_indep _ 0%Z (numeric_id EmptyString))
      by now rewrite length_map.
    now rewrite map_nth, H1.
  - now apply (IH (S i) cids rest m H2).
Qed.

Lemma extract_state doc_type doc_path doc_url (st : state vec) :
  snd (extract doc_type doc_path doc_url st) = st.
Proof.
  unfold extract.
  repeat match goal with |- context [if ?b then _ else _] => destruct b end;
    reflexivity.
Qed.

(** Without the key [id], or with it and without the key [type], the call
    raises before anything else happens. *)
Lemma scribl_process_document_async_no_key (d : document) (st : state vec) :
  (id d = None -> process_document_async d st = (Raises "'id'", st))
  /\ (forall did, id d = Some did -> type d = None ->
                  process_document_async d st = (Raises "'type'", st)).
Proof.
  split.
  - intros E. unfold process_document_async, bind, getitem. now rewrite E.
  - intros did E1 E2. unfold process_document_async, bind, getitem.
    now rewrite E1, E2.
Qed.

(** The effect of one call on a document with the keys [id] and [type],
    branch by branch. *)
Lemma scribl_process_document_async_cases (d : document) (did dtype : string)
    (st : state vec) :
  id d = Some did -> type d = Some dtype ->
  let failed e := Failed ("Failed to process document " ++ did ++ ": " ++ e)%string in
  let ix := match index st with Some ix => ix | None => create_optimized_index end in
  process_document_async d st =
  match fst (extract dtype (dict_get (path d) "") (dict_get (url d) "") st) with
  | Raises e => (Returns (failed e), st)
  | Returns x =>
      if negb (success x)
      then (Returns (Failed (dict_get (x_error x) "Content extraction failed")), st)
      else
        let cks := intelligent_chunking (x_content x) 512 64 in
        let cids := chunk_ids_of did (List.length cks) in
        let nids := map numeric_id cids in
        match encode (map text cks) with
        | Raises e => (Returns (failed e), st)
        | Returns e1 =>
            match normalize e1 with
            | Raises e => (Returns (failed e), st)
            | Returns e2 =>
                if Nat.eqb (List.length e2) (List.length nids)
                then (Returns (Completed did (List.length cks) (List.length e2)
                                 (x_metadata x)),
                      mk_state
                        (Some (Faiss.mk_index (Faiss.sub_index ix)
                                 (Faiss.rows ix ++ combine nids e2)))
                        (chunk_metadata st
                           ++ store_metadata d did dtype (x_metadata x) 0
                                (combine cks cids) nids))
                else (Returns (failed "not same nb of vectors as ids"),
                      mk_state (Some ix) (chunk_metadata st))
            end
        end
  end.
Proof.
  intros Hid Hty failed ix. unfold process_document_async.
  unfold bind at 1. rewrite Hid. cbn [getitem ret].
  unfold bind at 1. rewrite Hty. cbn [getitem ret].
  unfold try_except. unfold bind at 1.
  pose proof (extract_state dtype (dict_get (path d) "") (dict_get (url d) "") st)
    as Hx.
  destruct (extract dtype (dict_get (path d) "") (dict_get (url d) "") st)
    as [[x|e] st0]; simpl in Hx; subst st0; simpl; [| reflexivity].
  destruct (negb (success x)); [reflexivity |].
  unfold bind, call, get, put, ret.
  destruct (encode _) as [e1|e]; [| reflexivity].
  destruct (normalize e1) as [e2|e]; [| reflexivity].
  unfold Faiss.add_with_ids.
  destruct st as [[ix0|] mds]; simpl; subst ix; simpl;
    destruct (Nat.eqb (List.length e2) _); reflexivity.
Qed.

Lemma scribl_chunk_ids_length doc_id n : List.length (chunk_ids_of doc_id n) = n.
Proof. unfold chunk_ids_of. now rewrite length_map, length_seq. Qed.

(** A call on a document that lacks a required key leaves the fields as
    they were. *)
Lemma scribl_process_no_key_state d (st : state vec) :
  id d = None \/ type d = None -> snd (process_document_async d st) = st.
Proof.
  intros H. destruct (scribl_process_document_async_no_key d st) as [H1 H2].
  destruct (id d) as [did|] eqn:Hid; [| now rewrite H1].
  destruct H as [H | H]; [discriminate |]. now rewrite (H2 did eq_refl H).
Qed.

Lemma scribl_process_preserves_ids d st :
  index_ids st = embedding_ids st ->
  index_ids (snd (process_document_async d st))
  = embedding_ids (snd (process_document_async d st)).
Proof.
  intros Hc.
  destruct (id d) as [did|] eqn:Hid;
    [| now rewrite scribl_process_no_key_state by (now left)].
  destruct (type d) as [dtype|] eqn:Hty;
    [| now rewrite scribl_process_no_key_state by (now right)].
  rewrite (scribl_process_document_async_cases d did dtype st Hid Hty).
  destruct (fst (extract _ _ _ st)) as [x|e]; [| exact Hc].
  destruct (negb _); [exact Hc |]. cbv zeta.
  destruct (encode _) as [e1|e]; [| exact Hc].
  destruct (normalize e1) as [e2|e]; [| exact Hc].
  destruct (Nat.eqb_spec (List.length e2)
              (List.length (map numeric_id
                 (chunk_ids_of did
                    (List.length (intelligent_chunking (x_content x) 512 64))))))
    as [E|E]; unfold index_ids, embedding_ids in *; simpl.
  - unfold Faiss.ids in *. simpl. rewrite !map_app. f_equal.
    + destruct (index st); [exact Hc |].
      simpl in Hc |- *. exact Hc.
    + rewrite map_fst_zip by exact E. symmetry.
      apply scribl_store_metadata_ids; [reflexivity |].
      rewrite length_combine, length_map, scribl_chunk_ids_length. lia.
  - destruct (index st); [exact Hc |]. exact Hc.
Qed.

Lemma scribl_process_preserves_numeric d st :
  (forall m, In m (chunk_metadata st) -> embedding_id m = numeric_id (chunk_id m)) ->
  forall m, In m (chunk_metadata (snd (process_document_async d st))) ->
            embedding_id m = numeric_id (chunk_id m).
Proof.
  intros Hc m.
  destruct (id d) as [did|] eqn:Hid;
    [| rewrite scribl_process_no_key_state by (now left); apply Hc].
  destruct (type d) as [dtype|] eqn:Hty;
    [| rewrite scribl_process_no_key_state by (now right); apply Hc].
  rewrite (scribl_process_document_async_cases d did dtype st Hid Hty).
  destruct (fst (extract _ _ _ st)) as [x|e]; [| apply Hc].
  destruct (negb _); [apply Hc |]. cbv zeta.
  destruct (encode _) as [e1|e]; [| apply Hc].
  destruct (normalize e1) as [e2|e]; [| apply Hc].
  destruct (Nat.eqb _ _); simpl; [| apply Hc].
  rewrite in_app_iff. intros [Hin | Hin]; [now apply Hc |].
  eapply scribl_store_metadata_numeric; [| exact Hin]. reflexivity.
Qed.


Lemma scribl_reachable_invariant st :
  reachable st ->
  index_ids st = embedding_ids st
  /\ (forall m, In m (chunk_metadata st) -> embedding_id m = numeric_id (chunk_id m)).
Proof.
  induction 1 as [|d st Hr [IH1 IH2]].
  - split; [reflexivity | intros m []].
  - split; [now apply scribl_process_preserves_ids
           | now apply scribl_process_preserves_numeric].
Qed.



End ScriblIngestion.

(** ** [ScriblProductionSystem]: retrieval and answers *)

Section ScriblRetrieval.
Import PyStr Py ScriblProductionSystem ScriblProductionSystemSpec.
Context `{C : Collaborators}.

Lemma scribl_search_block_hits ix query k (st : state vec) :
  search_block ix query k st
  = (match index_hits ix query k with
     | Returns hits => Returns (collect (chunk_metadata st) hits)
     | Raises e => Raises e
     end, st).
Proof.
  unfold search_block, index_hits, bind, call, get, ret, item0, raise.
  destruct (encode [query]) as [e1|e]; [| reflexivity].
  destruct (normalize e1) as [e2|e]; [| reflexivity].
  destruct (index_search ix e2 k) as [[[|s0 ss] [|i0 ii]]|e]; reflexivity.
Qed.

Lemma scribl_semantic_search_cases query k (st : state vec) :
  semantic_search query k st
  = (match index st with
     | None => Returns []
     | Some ix =>
         if Nat.eqb (List.length (chunk_metadata st)) 0 then Returns []
         else match index_hits ix query k with
              | Returns hits => Returns (collect (chunk_metadata st) hits)
              | Raises _ => Returns []
              end
     end, st).
Proof.
  unfold semantic_search, bind, get, ret.
  destruct (index st) as [ix|]; [| reflexivity].
  destruct (Nat.eqb _ 0); [reflexivity |].
  unfold try_except. rewrite scribl_search_block_hits.
  destruct (index_hits ix query k); reflexivity.
Qed.





(** [semantic_search] returns, and leaves the fields alone. *)
Lemma scribl_semantic_search_returns query k (st : state vec) :
  exists results, semantic_search query k st = (Returns results, st).
Proof.
  rewrite scribl_semantic_search_cases.
  destruct (index st) as [ix|]; [| now eexists].
  destruct (Nat.eqb _ 0); [now eexists |].
  destruct (index_hits ix query k); now eexists.
Qed.




End ScriblRetrieval.

(** ** [VectorDBSetup]: retrieval *)

Section VectorDBSetupRetrieval.
Import PyStr Py VectorDBSetup.
Context `{C : Collaborators}.

(** Without a handler the exception of a collaborator is the outcome. *)
Lemma search_similar_cases query k (st : state vec) :
  search_similar query k st
  = (match index st with
     | None => Returns []
     | Some ix =>
         match index_hits ix query k with
         | Returns hits => Returns (collect (document_metadata st) hits)
         | Raises e => Raises e
         end
     end, st).
Proof.
  unfold search_similar, index_hits, bind, call, get, ret, item0, raise.
  destruct (index st) as [ix|]; [| reflexivity].
  destruct (encode [query]) as [e1|e]; [| reflexivity].
  destruct (normalize e1) as [e2|e]; [| reflexivity].
  destruct (index_search ix e2 k) as [[[|s0 ss] [|i0 ii]]|e]; reflexivity.
Qed.


(** With no record stored no hit resolves. *)
Lemma vdb_collect_nil (hits : list (Q * Z)) : collect [] hits = [].
Proof.
  induction hits as [|[s i] hits IH]; [reflexivity |].
  simpl. rewrite IH. now destruct (negb (i =? -1)%Z).
Qed.

End VectorDBSetupRetrieval.

(** * The claims *)

(** C1.  The size bound of the chunker does not hold on the code: the
    running chunk is overwritten with the text built before the chunk was
    closed, so it is never reset.  On the three sentences below, each of
    which fits the budget of 15 characters, the second chunk is the join of
    two sentences and has 26 characters. *)
Theorem chunk_size_bound_broken :
  let text := "Sentence one. Sentence two. Sentence three." in
  let emitted := Chunker.intelligent_chunking text 15 64 in
  Chunker.sentences text = ["Sentence one"; "Sentence two"; "Sentence three."]
  /\ map Chunker.text emitted
     = ["Sentence one"; "Sentence one. Sentence two";
        "Sentence one. Sentence two. Sentence three."]
  /\ (Z.of_nat (String.length "Sentence one") <= 15)%Z
  /\ (Z.of_nat (String.length "Sentence two") <= 15)%Z
  /\ exists c,
       In c emitted
       /\ Chunker.text c = PyStr.join ". " ["Sentence one"; "Sentence two"]
       /\ (15 < Z.of_nat (String.length (Chunker.text c)))%Z.
Proof.
  cbv zeta. repeat split; try reflexivity; try (vm_compute; discriminate).
  eexists. split; [right; left; reflexivity |].
  split; [reflexivity | vm_compute; reflexivity].
Qed.

(** C2.  The overlap prefix does not hold on the code.  With an overlap of
    one sentence ([overlap = 50]) the chunk after ["A. B"] should be the
    trailing sentence ["B"] followed by the new sentence ["C"]; with no
    overlap ([overlap = 0]) it should be ["C"] alone.  In both cases the code
    emits the whole previous chunk again, followed by ["C"]. *)
Theorem overlap_prefix_broken :
  map Chunker.text (Chunker.intelligent_chunking "A. B. C. D" 4 50)
  = ["A. B"; "A. B. C"; "A. B. C. D"]
  /\ Chunker.overlap_slice 50 ["A"; "B"] = ["B"]
  /\ PyStr.join ". " (Chunker.overlap_slice 50 ["A"; "B"] ++ ["C"]) = "B. C"
  /\ String.prefix "B" "A. B. C" = false
  /\ map Chunker.text (Chunker.intelligent_chunking "A. B. C. D" 4 0)
     = ["A. B"; "A. B. C"; "A. B. C. D"]
  /\ map Chunker.sentence_count (Chunker.intelligent_chunking "A. B. C. D" 4 0)
     = [2; 3; 4].
Proof. repeat split; reflexivity. Qed.

(** C3 (as amended).  After every call of [process_document_async] on a
    store that was only ever filled through it, the index holds as many
    rows as there are metadata records, the ids of the rows are, in order,
    the embedding ids of the records, and the embedding id of a record is
    [hash(chunk_id) % 2**31] of its chunk id.  Nothing makes these ids
    unique. *)
Theorem index_metadata_parity :
  forall (C : Collaborators) (X : Extractors)
         (st : ProductionVectorDB.state vec) (d : ProductionVectorDB.document)
         (sst : ScriblProductionSystem.state vec) (sd : ScriblProductionSystem.document),
    ProductionVectorDBSpec.reachable st ->
    ScriblProductionSystemSpec.reachable sst ->
    let st' := snd (ProductionVectorDB.process_document_async d st) in
    let sst' := snd (ScriblProductionSystem.process_document_async sd sst) in
    (ProductionVectorDBSpec.index_size st'
       = List.length (ProductionVectorDB.chunk_metadata st')
     /\ ProductionVectorDBSpec.index_ids st' = ProductionVectorDBSpec.embedding_ids st'
     /\ forall m, In m (ProductionVectorDB.chunk_metadata st') ->
                  ProductionVectorDB.embedding_id m
                  = numeric_id (ProductionVectorDB.chunk_id m))
    /\ (ScriblProductionSystemSpec.index_size sst'
          = List.length (ScriblProductionSystem.chunk_metadata sst')
        /\ ScriblProductionSystemSpec.index_ids sst'
           = ScriblProductionSystemSpec.embedding_ids sst'
        /\ forall m, In m (ScriblProductionSystem.chunk_metadata sst') ->
                     ScriblProductionSystem.embedding_id m
                     = numeric_id (ScriblProductionSystem.chunk_id m)).
Proof.
  intros C X st d sst sd Hst Hsst st' sst'.
  destruct (reachable_invariant st'
              (ProductionVectorDBSpec.reach_process d st Hst)) as [H1 H2].
  destruct (scribl_reachable_invariant sst'
              (ScriblProductionSystemSpec.reach_process sd sst Hsst)) as [H3 H4].
  repeat split; try assumption.
  - transitivity (List.length (ProductionVectorDBSpec.index_ids st')).
    + unfold ProductionVectorDBSpec.index_size, ProductionVectorDBSpec.index_ids.
      destruct (ProductionVectorDB.index st'); [| reflexivity].
      unfold Faiss.ids, Faiss.ntotal. now rewrite length_map.
    + rewrite H1. unfold ProductionVectorDBSpec.embedding_ids. now rewrite length_map.
  - transitivity (List.length (ScriblProductionSystemSpec.index_ids sst')).
    + unfold ScriblProductionSystemSpec.index_size, ScriblProductionSystemSpec.index_ids.
      destruct (ScriblProductionSystem.index sst'); [| reflexivity].
      unfold Faiss.ids, Faiss.ntotal. now rewrite length_map.
    + rewrite H3. unfold ScriblProductionSystemSpec.embedding_ids.
      now rewrite length_map.
Qed.

Lemma index_metadata_parity_witness :
  ProductionVectorDBSpec.index_ids Sample.twice
  = ProductionVectorDBSpec.embedding_ids Sample.twice
  /\ ProductionVectorDBSpec.index_size Sample.twice = 2.
Proof.
  assert (H1 : @ProductionVectorDBSpec.reachable Sample.toy Sample.once)
    by exact (@ProductionVectorDBSpec.reach_process Sample.toy Sample.doc1 _
                (@ProductionVectorDBSpec.reach_init Sample.toy)).
  assert (H2 : @ScriblProductionSystemSpec.reachable Sample.toy Sample.toy_extractors
                 ScriblProductionSystem.initial)
    by exact (@ScriblProductionSystemSpec.reach_init Sample.toy Sample.toy_extractors).
  pose proof (index_metadata_parity Sample.toy Sample.toy_extractors
                Sample.once Sample.doc1 ScriblProductionSystem.initial Sample.sdoc1
                H1 H2) as [[_ [H _]] _].
  split; [exact H | reflexivity].
Defined.

(** C3 (as stated) fails: processing the same document twice completes
    both times and leaves two records, and two index rows, with one and the
    same embedding id. *)
Lemma embedding_ids_not_unique :
  fst (@ProductionVectorDB.process_document_async Sample.toy Sample.doc1
         ProductionVectorDB.initial)
  = Py.Returns (ProductionVectorDB.Completed "d1" 1 1)
  /\ fst (@ProductionVectorDB.process_document_async Sample.toy Sample.doc1
            Sample.once)
     = Py.Returns (ProductionVectorDB.Completed "d1" 1 1)
  /\ ProductionVectorDBSpec.embedding_ids Sample.twice = [431964211; 431964211]%Z
  /\ ~ NoDup (ProductionVectorDBSpec.embedding_ids Sample.twice).
Proof.
  repeat split; try reflexivity.
  intros H. change (NoDup [431964211; 431964211]%Z) in H.
  inversion H as [|? ? Hn _]; subst. apply Hn. now left.
Qed.

(** C4 (as amended).  Adding a batch that contains an external id already
    present raises nothing: [process_document_async] completes, the rows of
    the batch are appended behind the rows already stored, and the id is
    then stored twice. *)
Theorem duplicate_ids_are_appended :
  forall (C : Collaborators) (st : ProductionVectorDB.state vec)
         (ix : Faiss.index vec) (d : ProductionVectorDB.document) (doc_id : string)
         (e1 e2 : list vec) (i : Z),
    let cnt := ProductionVectorDB.dict_get (ProductionVectorDB.content d) "" in
    let cks := Chunker.intelligent_chunking cnt 512 64 in
    let nids := map numeric_id
                  (ProductionVectorDB.chunk_ids_of doc_id (List.length cks)) in
    ProductionVectorDB.id d = Some doc_id ->
    ProductionVectorDB.index st = Some ix ->
    PyStr.truthy cnt = true ->
    encode (map Chunker.text cks) = Py.Returns e1 ->
    normalize e1 = Py.Returns e2 ->
    List.length e2 = List.length cks ->
    In i (Faiss.ids ix) ->
    In i nids ->
    let st' := snd (ProductionVectorDB.process_document_async d st) in
    fst (ProductionVectorDB.process_document_async d st)
    = Py.Returns (ProductionVectorDB.Completed doc_id
                    (List.length cks) (List.length cks))
    /\ ProductionVectorDB.index st'
       = Some (Faiss.mk_index (Faiss.sub_index ix) (Faiss.rows ix ++ combine nids e2))
    /\ ProductionVectorDBSpec.index_ids st' = Faiss.ids ix ++ nids
    /\ (2 <= count_occ Z.eq_dec (ProductionVectorDBSpec.index_ids st') i).
Proof.
  intros C st ix d doc_id e1 e2 i cnt cks nids Hid Hix Hcnt He1 He2 Hlen Hi1 Hi2 st'.
  assert (Hn : List.length nids = List.length cks)
    by (unfold nids; now rewrite length_map, chunk_ids_length).
  subst st'. rewrite (process_document_async_cases d doc_id st Hid).
  fold cnt. rewrite Hcnt. simpl negb. cbv iota.
  fold cks. rewrite He1, He2. fold nids.
  rewrite Hlen, Hn, Nat.eqb_refl, Hix. simpl.
  assert (Hids : Faiss.ids (Faiss.mk_index (Faiss.sub_index ix)
                              (Faiss.rows ix ++ combine nids e2))
                 = Faiss.ids ix ++ nids).
  { unfold Faiss.ids. simpl. rewrite map_app, map_fst_zip; [reflexivity | congruence]. }
  repeat split.
  - unfold ProductionVectorDBSpec.index_ids. simpl. exact Hids.
  - unfold ProductionVectorDBSpec.index_ids. simpl. rewrite Hids, count_occ_app.
    apply (count_occ_In Z.eq_dec) in Hi1, Hi2. lia.
Qed.

Lemma duplicate_ids_are_appended_witness :
  ProductionVectorDB.index Sample.twice
  = Some (Faiss.mk_index (Faiss.sub_index (Sample.hnsw_index [(431964211%Z, tt)]))
            ([(431964211%Z, tt)] ++ combine [431964211%Z] [tt]))
  /\ (2 <= count_occ Z.eq_dec (ProductionVectorDBSpec.index_ids Sample.twice)
            431964211%Z).
Proof.
  pose proof (duplicate_ids_are_appended Sample.toy Sample.once
                (Sample.hnsw_index [(431964211%Z, tt)]) Sample.doc1 "d1"
                [tt] [tt] 431964211%Z
                eq_refl eq_refl eq_refl eq_refl eq_refl eq_refl
                (or_introl eq_refl) (or_introl eq_refl)) as [_ [H1 [_ H2]]].
  split; [exact H1 | exact H2].
Defined.

(** C4 (as stated) fails: the add of an id that is already in the index
    returns normally and the index grows by the duplicate row, in
    [process_document_async] as in [add_documents]. *)
Lemma duplicate_add_not_rejected :
  Faiss.add_with_ids (Sample.hnsw_index [(431964211%Z, tt)]) [tt] [431964211%Z]
  = Py.Returns (Sample.hnsw_index [(431964211%Z, tt); (431964211%Z, tt)])
  /\ ProductionVectorDB.index Sample.once = Some (Sample.hnsw_index [(431964211%Z, tt)])
  /\ @ProductionVectorDB.process_document_async Sample.toy Sample.doc1 Sample.once
     = (Py.Returns (ProductionVectorDB.Completed "d1" 1 1), Sample.twice)
  /\ ProductionVectorDB.index Sample.twice
     = Some (Sample.hnsw_index [(431964211%Z, tt); (431964211%Z, tt)])
  /\ VectorDBSetup.index Sample.vonce = Some (Sample.flat_index [(431964211%Z, tt)])
  /\ @VectorDBSetup.add_documents Sample.toy [Sample.vdoc1] Sample.vonce
     = (Py.Returns tt, Sample.vtwice)
  /\ VectorDBSetup.index Sample.vtwice
     = Some (Sample.flat_index [(431964211%Z, tt); (431964211%Z, tt)]).
Proof. repeat split; reflexivity. Qed.







(** C7 (as amended).  [semantic_search] on a store without index or without
    records returns the empty list and raises nothing, whatever the query,
    [k] and the collaborators are.  [search_similar] does so when no index
    exists.  Once an index exists - [add_documents] creates it before it
    looks at its argument - [search_similar] embeds the query and searches
    the index although no record is stored: it returns the empty list when
    the embedder and the index answer, and what they raise reaches the
    caller. *)
Theorem search_on_empty_store :
  forall (C : Collaborators) (query : string) (k : Z)
         (st : ProductionVectorDB.state vec)
         (sst : ScriblProductionSystem.state vec)
         (vst : VectorDBSetup.state vec),
    ProductionVectorDB.index st = None \/ ProductionVectorDB.chunk_metadata st = [] ->
    ScriblProductionSystem.index sst = None
    \/ ScriblProductionSystem.chunk_metadata sst = [] ->
    VectorDBSetup.index vst = None \/ VectorDBSetup.document_metadata vst = [] ->
    ProductionVectorDB.semantic_search query k st = (Py.Returns [], st)
    /\ ScriblProductionSystem.semantic_search query k sst = (Py.Returns [], sst)
    /\ VectorDBSetup.search_similar query k vst
       = (match VectorDBSetup.index vst with
          | None => Py.Returns []
          | Some vix =>
              match index_hits vix query k with
              | Py.Returns _ => Py.Returns []
              | Py.Raises e => Py.Raises e
              end
          end, vst).
Proof.
  intros C query k st sst vst Hst Hsst Hvst. repeat split.
  - rewrite semantic_search_cases.
    destruct (ProductionVectorDB.index st) as [ix|]; [| reflexivity].
    destruct Hst as [Hst | Hst]; [discriminate | now rewrite Hst].
  - rewrite scribl_semantic_search_cases.
    destruct (ScriblProductionSystem.index sst) as [ix|]; [| reflexivity].
    destruct Hsst as [Hsst | Hsst]; [discriminate | now rewrite Hsst].
  - rewrite search_similar_cases.
    destruct (VectorDBSetup.index vst) as [vix|]; [| reflexivity].
    destruct Hvst as [Hvst | Hvst]; [discriminate |].
    rewrite Hvst. destruct (index_hits vix query k); [| reflexivity].
    now rewrite vdb_collect_nil.
Qed.

Lemma search_on_empty_store_witness :
  @ProductionVectorDB.semantic_search Sample.toy_offline "query" 10
    ProductionVectorDB.initial
  = (Py.Returns [], ProductionVectorDB.initial)
  /\ @ScriblProductionSystem.semantic_search Sample.toy_offline "query" 10
       ScriblProductionSystem.initial
     = (Py.Returns [], ScriblProductionSystem.initial)
  /\ @VectorDBSetup.search_similar Sample.toy_offline "query" 10 VectorDBSetup.initial
     = (Py.Returns [], VectorDBSetup.initial).
Proof.
  apply (search_on_empty_store Sample.toy_offline "query" 10
           ProductionVectorDB.initial ScriblProductionSystem.initial
           VectorDBSetup.initial);
    left; reflexivity.
Defined.

(** C7 (as stated) fails for [search_similar]: after [add_documents] was
    called with no document - whether that call returned or raised - the
    index exists and holds no row, and no record is stored; a search then
    consults the embedder, and when that cannot be reached the exception is
    the outcome of the search. *)
Lemma search_similar_raises_on_empty_index :
  @VectorDBSetup.add_documents Sample.toy [] VectorDBSetup.initial
  = (Py.Returns tt, Sample.vempty)
  /\ @VectorDBSetup.add_documents Sample.toy_offline [] VectorDBSetup.initial
     = (Py.Raises "embedder unreachable", Sample.vempty)
  /\ VectorDBSetup.index Sample.vempty = Some (Sample.flat_index [])
  /\ Faiss.ntotal (Sample.flat_index []) = 0
  /\ VectorDBSetup.document_metadata Sample.vempty = []
  /\ @VectorDBSetup.search_similar Sample.toy "query" 10 Sample.vempty
     = (Py.Returns [], Sample.vempty)
  /\ @VectorDBSetup.search_similar Sample.toy_offline "query" 10 Sample.vempty
     = (Py.Raises "embedder unreachable", Sample.vempty).
Proof. repeat split; reflexivity. Qed.




(** C9.  A sentence longer than [chunk_size] is emitted in full: some chunk
    is a join of whole sentences among which it occurs; and a text that
    consists of this one sentence yields exactly one chunk, the sentence
    itself. *)
Theorem overlong_sentence_emitted_whole :
  forall (text : string) (chunk_size overlap : Z) (s : string),
    In s (Chunker.sentences text) ->
    (chunk_size < Z.of_nat (String.length s))%Z ->
    (exists c pre post,
        In c (Chunker.intelligent_chunking text chunk_size overlap)
        /\ Chunker.text c = PyStr.join ". " (pre ++ s :: post))
    /\ (Chunker.sentences text = [s] ->
        Chunker.intelligent_chunking text chunk_size overlap
        = [Chunker.mk_chunk_info s 1 (String.length s) s s]).
Proof.
  intros text chunk_size overlap s Hin Hlong. split.
  - destruct (last_chunk_is_everything chunk_size overlap text) as [c [Hc Ht]].
    + intros E. rewrite E in Hin. destruct Hin.
    + destruct (in_split _ _ Hin) as [pre [post E]].
      exists c, pre, post. split; [exact Hc | now rewrite Ht, E].
  - intros E. pose proof (sentences_trimmed _ _ Hin) as Ht.
    unfold Chunker.intelligent_chunking. rewrite run_sentences.
    fold (Chunker.sentences text). rewrite E. simpl.
    unfold Chunker.add_sentence, Chunker.finish. simpl.
    rewrite andb_false_r. simpl.
    rewrite (trimmed_strip _ Ht), (head_ok_truthy _ (proj1 Ht)).
    unfold Chunker.chunk_of. simpl. now rewrite (trimmed_strip _ Ht).
Qed.

Lemma overlong_sentence_emitted_whole_witness :
  In "An overlong sentence" (Chunker.sentences "An overlong sentence")
  /\ (5 < Z.of_nat (String.length "An overlong sentence"))%Z
  /\ Chunker.intelligent_chunking "An overlong sentence" 5 64
     = [Chunker.mk_chunk_info "An overlong sentence" 1 20
          "An overlong sentence" "An overlong sentence"].
Proof.
  split; [left; reflexivity |]. split; [reflexivity |].
  apply (overlong_sentence_emitted_whole "An overlong sentence" 5 64
           "An overlong sentence"); [left; reflexivity | reflexivity | reflexivity].
Defined.

(** C10.  [semantic_search] returns a list and never raises, whatever the
    embedder and the index do; when the guarded block raises, the list
    returned is empty.  The fields of the object are unchanged. *)
Theorem semantic_search_never_raises :
  forall (C : Collaborators) (query : string) (k : Z)
         (st : ProductionVectorDB.state vec)
         (sst : ScriblProductionSystem.state vec),
    (exists results,
        ProductionVectorDB.semantic_search query k st = (Py.Returns results, st)
        /\ forall ix e st',
             ProductionVectorDB.index st = Some ix ->
             ProductionVectorDB.search_block ix query k st = (Py.Raises e, st') ->
             results = [])
    /\ (exists results,
           ScriblProductionSystem.semantic_search query k sst = (Py.Returns results, sst)
           /\ forall ix e st',
                ScriblProductionSystem.index sst = Some ix ->
                ScriblProductionSystem.search_block ix query k sst = (Py.Raises e, st') ->
                results = []).
Proof.
  intros C query k st sst. split.
  - rewrite semantic_search_cases.
    destruct (ProductionVectorDB.index st) as [ix|]; [| now exists []].
    destruct (Nat.eqb _ 0); [now exists [] |].
    destruct (index_hits ix query k) as [hits|e0] eqn:Eh; [| now exists []].
    eexists. split; [reflexivity |].
    intros ix' e st' Hix' Hb. inversion Hix'; subst ix'.
    rewrite search_block_hits, Eh in Hb. discriminate Hb.
  - rewrite scribl_semantic_search_cases.
    destruct (ScriblProductionSystem.index sst) as [ix|]; [| now exists []].
    destruct (Nat.eqb _ 0); [now exists [] |].
    destruct (index_hits ix query k) as [hits|e0] eqn:Eh; [| now exists []].
    eexists. split; [reflexivity |].
    intros ix' e st' Hix' Hb. inversion Hix'; subst ix'.
    rewrite scribl_search_block_hits, Eh in Hb. discriminate Hb.
Qed.

Lemma semantic_search_never_raises_witness :
  @ProductionVectorDB.search_block Sample.toy_offline
    (Sample.hnsw_index [(431964211%Z, tt)]) "query" 10
    Sample.once
  = (Py.Raises "embedder unreachable", Sample.once)
  /\ exists results,
       @ProductionVectorDB.semantic_search Sample.toy_offline "query" 10 Sample.once
       = (Py.Returns results, Sample.once)
       /\ results = [].
Proof.
  split; [reflexivity |].
  destruct (semantic_search_never_raises Sample.toy_offline "query" 10
              Sample.once Sample.sonce) as [[results [H1 H2]] _].
  exists results. split; [exact H1 |].
  apply (H2 (Sample.hnsw_index [(431964211%Z, tt)]) "embedder unreachable"
           Sample.once);
    reflexivity.
Defined.

(** * Further properties of the code *)

(** ** [intelligent_chunking] *)

Section ChunkerMore.
Import PyStr Chunker.

Variables chunk_size overlap : Z.

Lemma truthy_append a b : truthy b = true -> truthy (a ++ b)%string = true.
Proof. destruct a; simpl; [tauto | reflexivity]. Qed.

Lemma add_sentence_truthy st s :
  truthy s = true -> truthy (current_chunk (add_sentence chunk_size overlap st s)) = true.
Proof.
  intros Hs. rewrite add_sentence_current.
  destruct (truthy (current_chunk st)); [| exact Hs].
  now do 2 apply truthy_append.
Qed.

Lemma add_sentence_last st s :
  exists before, current_sentences (add_sentence chunk_size overlap st s) = before ++ [s].
Proof.
  unfold add_sentence. simpl.
  destruct (_ && _); simpl; eexists; reflexivity.
Qed.

Lemma slice_from_incl {A : Type} (j : Z) (l : list A) x :
  In x (slice_from j l) -> In x l.
Proof.
  unfold slice_from. intros H.
  rewrite <- (firstn_skipn (Z.to_nat
    (if (j <? 0)%Z then Z.max (Z.of_nat (List.length l) + j) 0
     else Z.min j (Z.of_nat (List.length l)))) l).
  apply in_or_app. now right.
Qed.

Lemma overlap_slice_incl ov l x : In x (overlap_slice ov l) -> In x l.
Proof.
  unfold overlap_slice. destruct (_ >? _)%Z; [apply slice_from_incl | intros []].
Qed.

(** The recorded sentence list only holds sentences that were read. *)
Lemma current_sentences_seen ss : forall st seen,
  (forall x, In x (current_sentences st) -> In x seen) ->
  forall x, In x (current_sentences (fold_left (add_sentence chunk_size overlap) ss st)) -> In x (seen ++ ss).
Proof.
  induction ss as [|s ss IH]; intros st seen Hst x Hx.
  - rewrite app_nil_r. now apply Hst.
  - simpl in Hx. replace (seen ++ s :: ss) with ((seen ++ [s]) ++ ss)
      by now rewrite <- app_assoc.
    apply (IH (add_sentence chunk_size overlap st s) (seen ++ [s])); [| exact Hx].
    clear x Hx. intros x Hx. unfold add_sentence in Hx. simpl in Hx.
    apply in_or_app.
    destruct (_ && _); simpl in Hx; apply in_app_or in Hx;
      destruct Hx as [Hx | [<- | []]]; try (right; now left); left; apply Hst;
      [now apply (overlap_slice_incl overlap) | exact Hx].
Qed.

(** Every chunk closed in the loop is the snapshot of the state after some
    non-empty initial segment of the sentences. *)
Lemma closed_chunk_is_snapshot ss : forall seen,
  (forall c, In c (chunks (fold_left (add_sentence chunk_size overlap) seen init_state)) ->
             exists n, 0 < n <= List.length seen /\ c = chunk_of (state_after chunk_size overlap seen n)) ->
  forall c, In c (chunks (fold_left (add_sentence chunk_size overlap) ss (fold_left (add_sentence chunk_size overlap) seen init_state))) ->
            exists n, 0 < n <= List.length (seen ++ ss)
                      /\ c = chunk_of (state_after chunk_size overlap (seen ++ ss) n).
Proof.
  induction ss as [|s ss IH]; intros seen Hseen c Hc.
  - rewrite app_nil_r. now apply Hseen.
  - simpl in Hc. replace (seen ++ s :: ss) with ((seen ++ [s]) ++ ss)
      by now rewrite <- app_assoc.
    apply IH; [| now rewrite fold_left_app].
    clear c Hc. intros c Hc. rewrite fold_left_app in Hc. simpl in Hc.
    assert (Hold : forall c0, In c0 (chunks (fold_left (add_sentence chunk_size overlap) seen init_state)) ->
              exists n, 0 < n <= List.length (seen ++ [s])
                        /\ c0 = chunk_of (state_after chunk_size overlap (seen ++ [s]) n)).
    { intros c0 Hc0. destruct (Hseen c0 Hc0) as [n [Hn E]].
      exists n. rewrite length_app. split; [lia |].
      unfold state_after in *. rewrite firstn_app.
      replace (n - List.length seen) with 0 by lia.
      simpl. now rewrite app_nil_r. }
    unfold add_sentence at 1 in Hc. simpl in Hc.
    destruct (_ && truthy (current_chunk (fold_left (add_sentence chunk_size overlap) seen init_state))) eqn:E;
      simpl in Hc; [| now apply Hold].
    apply in_app_or in Hc. destruct Hc as [Hc | [<- | []]]; [now apply Hold |].
    apply andb_prop in E. destruct E as [_ E].
    destruct seen as [|a seen]; [discriminate E |].
    exists (List.length (a :: seen)). rewrite length_app. split; [simpl; lia |].
    unfold state_after. rewrite firstn_app, Nat.sub_diag, firstn_all.
    change (firstn 0 [s]) with (@nil string). now rewrite app_nil_r.
Qed.

Lemma emitted_chunk_is_snapshot text c :
  In c (intelligent_chunking text chunk_size overlap) ->
  exists n, 0 < n <= List.length (sentences text)
            /\ c = chunk_of (state_after chunk_size overlap (sentences text) n).
Proof.
  unfold intelligent_chunking. rewrite run_sentences. fold (sentences text).
  intros Hc.
  pose proof (closed_chunk_is_snapshot (sentences text) []
                (fun c0 (H : In c0 []) => False_ind _ H)) as Hch.
  simpl in Hch. unfold finish in Hc.
  destruct (truthy (strip (current_chunk (fold_left (add_sentence chunk_size overlap) (sentences text) init_state))))
    eqn:E; [| now apply Hch].
  apply in_app_or in Hc. destruct Hc as [Hc | [<- | []]]; [now apply Hch |].
  destruct (sentences text) as [|a l] eqn:Es; [discriminate E |].
  exists (List.length (a :: l)). split; [simpl; lia |].
  unfold state_after. now rewrite firstn_all.
Qed.

Lemma firstn_snoc {A : Type} (l : list A) n :
  0 < n <= List.length l -> exists pre x, firstn n l = pre ++ [x] /\ In x l.
Proof.
  intros Hn. destruct (firstn n l) as [|a f] eqn:E.
  - apply (f_equal (@List.length A)) in E. rewrite length_firstn in E. simpl in E. lia.
  - destruct (exists_last (l:=a :: f) ltac:(discriminate)) as [pre [x Ex]].
    exists pre, x. split; [exact Ex |].
    rewrite <- (firstn_skipn n l), E, Ex. apply in_or_app. left.
    apply in_or_app. right. now left.
Qed.

(** X1.  An empty result means that the text has no sentence at all. *)
Theorem no_chunk_iff_no_sentence :
  forall text,
    intelligent_chunking text chunk_size overlap = [] <-> sentences text = [].
Proof.
  intros text. split.
  - intros E. destruct (sentences text) as [|a l] eqn:Es; [reflexivity |].
    destruct (last_chunk_is_everything chunk_size overlap text) as [c [Hc _]];
      [congruence |].
    rewrite E in Hc. destruct Hc.
  - intros Es. unfold intelligent_chunking. rewrite run_sentences.
    fold (sentences text). now rewrite Es.
Qed.

(** X4.  The fields recorded with a chunk: its text is not empty and has
    no white space at either end, [char_count] is the length of the text,
    [sentence_count] is at least 1, and [start_sentence] and [end_sentence]
    are sentences of the input. *)
Theorem chunk_fields_consistent :
  forall text c,
    In c (intelligent_chunking text chunk_size overlap) ->
    trimmed (Chunker.text c)
    /\ char_count c = String.length (Chunker.text c)
    /\ 1 <= sentence_count c
    /\ In (start_sentence c) (sentences text)
    /\ In (end_sentence c) (sentences text).
Proof.
  intros text c Hc.
  destruct (emitted_chunk_is_snapshot text c Hc) as [n [Hn ->]].
  assert (HF : Forall trimmed (sentences text))
    by (apply Forall_forall; intros s; apply sentences_trimmed).
  assert (HFn : Forall trimmed (firstn n (sentences text))).
  { apply Forall_forall. intros x Hx. rewrite Forall_forall in HF. apply HF.
    rewrite <- (firstn_skipn n (sentences text)). apply in_or_app. now left. }
  pose proof (current_chunk_cumulative chunk_size overlap
                (firstn n (sentences text)) init_state [] (Forall_nil _) HFn eq_refl)
    as Hcur.
  simpl in Hcur.
  destruct (firstn_snoc (sentences text) n Hn) as [pre [x [Ex Hx]]].
  assert (Ht : trimmed (join ". " (firstn n (sentences text)))).
  { apply join_trimmed; [| exact HFn]. rewrite Ex. now destruct pre. }
  assert (Hseen : forall y, In y (current_sentences (state_after chunk_size overlap (sentences text) n)) ->
                            In y (sentences text)).
  { intros y Hy. unfold state_after in Hy.
    apply (current_sentences_seen (firstn n (sentences text)) init_state []) in Hy;
      [| intros z []].
    simpl in Hy. rewrite <- (firstn_skipn n (sentences text)).
    apply in_or_app. now left. }
  assert (Hlast : exists before,
             current_sentences (state_after chunk_size overlap (sentences text) n) = before ++ [x]).
  { unfold state_after. rewrite Ex, fold_left_app. simpl. apply add_sentence_last. }
  destruct Hlast as [before Hb].
  unfold chunk_of, state_after in *. simpl. rewrite Hcur.
  rewrite (trimmed_strip _ Ht). repeat split; try apply Ht.
  - rewrite Hb, length_app. simpl. lia.
  - apply Hseen. rewrite Hb. unfold first_or_empty.
    destruct before; simpl; now left.
  - unfold last_or_empty. rewrite Hb, last_last. exact Hx.
Qed.

Lemma join_length_app sep (a b : list string) :
  String.length (join sep a) <= String.length (join sep (a ++ b)).
Proof.
  induction a as [|x a IH]; [simpl; lia |].
  destruct a as [|y a].
  - simpl. destruct b; [lia |]. rewrite length_append. lia.
  - change (join sep (x :: y :: a)) with (x ++ sep ++ join sep (y :: a))%string.
    change (join sep ((x :: y :: a) ++ b))
      with (x ++ sep ++ join sep ((y :: a) ++ b))%string.
    rewrite !length_append. lia.
Qed.

(** While the joined sentences stay within the budget nothing is closed. *)
Lemma fold_within_budget ss : forall seen,
  Forall trimmed (seen ++ ss) ->
  (Z.of_nat (String.length (join ". " (seen ++ ss))) <= chunk_size)%Z ->
  fold_left (add_sentence chunk_size overlap) ss
    {| chunks := []; current_chunk := join ". " seen; current_sentences := seen |}
  = {| chunks := []; current_chunk := join ". " (seen ++ ss);
       current_sentences := seen ++ ss |}.
Proof.
  induction ss as [|s ss IH]; intros seen HF Hlen.
  - now rewrite app_nil_r.
  - replace (seen ++ s :: ss) with ((seen ++ [s]) ++ ss) in *
      by now rewrite <- app_assoc.
    simpl. rewrite <- (IH (seen ++ [s]) HF Hlen). f_equal.
    apply Forall_app in HF. destruct HF as [HF _].
    apply Forall_app in HF. destruct HF as [Hseen _].
    assert (Ht : (if truthy (join ". " seen)
                  then (join ". " seen ++ ". " ++ s)%string else s)
                 = join ". " (seen ++ [s])).
    { destruct seen as [|a seen]; [reflexivity |].
      rewrite (head_ok_truthy _ (proj1 (join_trimmed ". " (a :: seen)
                                          ltac:(discriminate) Hseen))).
      now rewrite join_snoc by discriminate. }
    unfold add_sentence. cbn [current_chunk chunks current_sentences].
    rewrite Ht.
    assert (Hno : (Z.of_nat (String.length (join ". " (seen ++ [s]))) >? chunk_size)%Z
                  = false).
    { rewrite Z.gtb_ltb. apply Z.ltb_ge.
      pose proof (join_length_app ". " (seen ++ [s]) ss). lia. }
    rewrite Hno. reflexivity.
Qed.

(** X3.  A text whose joined sentences fit the budget is one chunk that
    records all of its sentences. *)
Theorem text_within_budget_is_one_chunk :
  forall text,
    sentences text <> [] ->
    (Z.of_nat (String.length (join ". " (sentences text))) <= chunk_size)%Z ->
    intelligent_chunking text chunk_size overlap
    = [{| Chunker.text := join ". " (sentences text);
          sentence_count := List.length (sentences text);
          char_count := String.length (join ". " (sentences text));
          start_sentence := hd "" (sentences text);
          end_sentence := last (sentences text) "" |}].
Proof.
  intros text Hne Hlen.
  assert (HF : Forall trimmed (sentences text))
    by (apply Forall_forall; intros s; apply sentences_trimmed).
  unfold intelligent_chunking. rewrite run_sentences. fold (sentences text).
  change init_state
    with {| chunks := []; current_chunk := join ". " [];
            current_sentences := @nil string |}.
  rewrite (fold_within_budget (sentences text) [] HF Hlen). simpl app.
  pose proof (join_trimmed ". " _ Hne HF) as Ht.
  unfold finish, chunk_of. cbn [current_chunk chunks current_sentences].
  rewrite (trimmed_strip _ Ht), (head_ok_truthy _ (proj1 Ht)). reflexivity.
Qed.

Lemma chunks_grow_by_one st s :
  List.length (chunks (add_sentence chunk_size overlap st s))
  <= List.length (chunks st) + (if truthy (current_chunk st) then 1 else 0).
Proof.
  unfold add_sentence. cbn [chunks].
  destruct (truthy (current_chunk st)).
  - destruct (_ >? _)%Z; simpl; [rewrite length_app; simpl |]; lia.
  - rewrite andb_false_r. lia.
Qed.

Lemma closed_count ss : forall st,
  Forall (fun s => truthy s = true) ss ->
  List.length (chunks (fold_left (add_sentence chunk_size overlap) ss st))
  + (match ss with [] => 0 | _ => 1 end)
  <= List.length (chunks st) + (if truthy (current_chunk st) then 1 else 0)
     + List.length ss.
Proof.
  induction ss as [|s ss IH]; intros st HF; [simpl; lia |].
  inversion HF as [|? ? Hs HF']; subst. simpl fold_left.
  specialize (IH (add_sentence chunk_size overlap st s) HF').
  rewrite (add_sentence_truthy st s Hs) in IH.
  pose proof (chunks_grow_by_one st s). simpl List.length.
  destruct ss; simpl in *; lia.
Qed.

(** X5.  There are never more chunks than sentences. *)
Theorem chunk_count_bounded :
  forall text,
    List.length (intelligent_chunking text chunk_size overlap)
    <= List.length (sentences text).
Proof.
  intros text.
  assert (HF : Forall (fun s => truthy s = true) (sentences text)).
  { apply Forall_forall. intros s Hs. unfold sentences in Hs.
    now apply filter_In in Hs. }
  unfold intelligent_chunking. rewrite run_sentences. fold (sentences text).
  pose proof (closed_count (sentences text) init_state HF) as H.
  simpl in H. unfold finish.
  destruct (sentences text) as [|a l] eqn:E; [reflexivity |].
  destruct (truthy _); [rewrite length_app |]; simpl in *; lia.
Qed.

End ChunkerMore.

Lemma chunk_fields_consistent_witness :
  let c := Chunker.mk_chunk_info "One. Two" 2 8 "One" "Two" in
  In c (Chunker.intelligent_chunking "One. Two  " 512 64)
  /\ Chunker.char_count c = String.length (Chunker.text c)
  /\ 1 <= Chunker.sentence_count c.
Proof.
  intros c.
  assert (Hc : In c (Chunker.intelligent_chunking "One. Two  " 512 64))
    by (left; reflexivity).
  destruct (chunk_fields_consistent 512 64 "One. Two  " c Hc) as [_ [H1 [H2 _]]].
  split; [exact Hc | split; [exact H1 | exact H2]].
Defined.

Lemma text_within_budget_is_one_chunk_witness :
  List.length (Chunker.intelligent_chunking "One. Two  " 512 64) = 1.
Proof.
  rewrite (text_within_budget_is_one_chunk 512 64 "One. Two  ");
    [reflexivity | discriminate | vm_compute; discriminate].
Defined.

Lemma chunks_are_cumulative_witness :
  exists c n,
    In c (Chunker.intelligent_chunking "A. B. C. D" 4 50)
    /\ Chunker.text c = PyStr.join ". " (firstn n (Chunker.sentences "A. B. C. D")).
Proof.
  eexists.
  destruct (chunks_are_cumulative 4 50 "A. B. C. D"
              {| Chunker.text := "A. B. C"; Chunker.sentence_count := 2;
                 Chunker.char_count := 7; Chunker.start_sentence := "B";
                 Chunker.end_sentence := "C" |})
    as [n [_ Hn]]; [right; left; reflexivity |].
  exists n. split; [right; left; reflexivity | exact Hn].
Defined.

(** ** [ProductionVectorDB]: ingestion and retrieval *)

Section ProductionMore.
Import PyStr Chunker Py ProductionVectorDB ProductionVectorDBSpec.
Context `{C : Collaborators}.




(** X7.  [process_document_async] reads the key [id] before its handler is
    in place: without that key the call raises the [KeyError] and the fields
    stay as they were.  With the key the call returns in every case, and
    when it reports an error no metadata record and no index row was
    added. *)
Theorem process_failure_is_clean :
  forall (d : document) (st : state vec),
    (id d = None -> process_document_async d st = (Raises "'id'", st))
    /\ (forall did : string,
          id d = Some did ->
          exists r,
            fst (process_document_async d st) = Returns r
            /\ forall message,
                 r = Error message ->
                 chunk_metadata (snd (process_document_async d st))
                 = chunk_metadata st
                 /\ index_ids (snd (process_document_async d st)) = index_ids st).
Proof.
  intros d st. split; [apply process_document_async_no_id |].
  intros did Hid. rewrite (process_document_async_cases d did st Hid).
  destruct (negb _); [eexists; split; [reflexivity | now intros] |].
  destruct (encode _) as [e1|e]; [| eexists; split; [reflexivity | now intros]].
  destruct (normalize e1) as [e2|e]; [| eexists; split; [reflexivity | now intros]].
  destruct (Nat.eqb _ _); eexists; (split; [reflexivity |]); intros message Hm;
    [discriminate Hm |].
  split; [reflexivity |]. unfold index_ids. simpl. now destruct (index st).
Qed.

Lemma store_metadata_fields d did t zipped : forall i nids,
  map chunk_index (store_metadata d did t i zipped nids) = seq i (List.length zipped)
  /\ map m_content (store_metadata d did t i zipped nids) = map text (map fst zipped)
  /\ map chunk_id (store_metadata d did t i zipped nids) = map snd zipped
  /\ Forall (fun m => doc_id m = did /\ document_type m = t)
       (store_metadata d did t i zipped nids).
Proof.
  induction zipped as [|[c cid] zipped IH]; intros i nids.
  - repeat split; constructor.
  - destruct (IH (S i) nids) as [H1 [H2 [H3 H4]]]. simpl.
    rewrite H1, H2, H3. repeat split. constructor; [now split | exact H4].
Qed.

Lemma zip_fst_snd {A B : Type} (a : list A) : forall (b : list B),
  List.length a = List.length b ->
  map fst (combine a b) = a /\ map snd (combine a b) = b.
Proof.
  induction a as [|x a IH]; intros [|y b] E; simpl in *; try discriminate;
    [now split |].
  destruct (IH b ltac:(congruence)) as [H1 H2]. now rewrite H1, H2.
Qed.

(** X8.  A completed call appends one record per chunk, in chunk order: the
    records carry the positions 0, 1, ..., the chunk texts, the chunk ids
    [<doc id>_chunk_<position>] and the document id, and the index receives
    their embedding ids in the same order; both reported counts are the
    number of chunks. *)
Theorem process_completed_appends :
  forall (d : document) (st : state vec) (did : string)
         (created generated : nat),
    fst (process_document_async d st) = Returns (Completed did created generated) ->
    let cks := intelligent_chunking (dict_get (content d) "") 512 64 in
    id d = Some did /\ created = List.length cks /\ generated = List.length cks
    /\ exists new,
         chunk_metadata (snd (process_document_async d st)) = chunk_metadata st ++ new
         /\ map chunk_index new = seq 0 (List.length cks)
         /\ map m_content new = map text cks
         /\ map chunk_id new = chunk_ids_of did (List.length cks)
         /\ Forall (fun m => doc_id m = did) new
         /\ index_ids (snd (process_document_async d st))
            = index_ids st ++ map embedding_id new.
Proof.
  intros d st did created generated.
  destruct (id d) as [did0|] eqn:Hid;
    [| rewrite process_document_async_no_id by exact Hid; discriminate].
  rewrite (process_document_async_cases d did0 st Hid).
  destruct (negb _); [discriminate |].
  destruct (encode _) as [e1|e0]; [| discriminate].
  destruct (normalize e1) as [e2|e0]; [| discriminate].
  set (cks := intelligent_chunking (dict_get (content d) "") 512 64).
  set (cids := chunk_ids_of did0 (List.length cks)).
  destruct (Nat.eqb_spec (List.length e2) (List.length (map numeric_id cids)))
    as [E|E]; [| discriminate].
  simpl. intros H. inversion H; subst did created generated. clear H.
  assert (Hl : List.length cks = List.length cids)
    by (unfold cids; now rewrite chunk_ids_length).
  rewrite length_map in E.
  repeat split; try congruence.
  destruct (store_metadata_fields d did0 (dict_get (type d) "unknown")
              (combine cks cids) 0 (map numeric_id cids)) as [H1 [H2 [H3 H4]]].
  destruct (zip_fst_snd cks cids Hl) as [Z1 Z2].
  eexists. split; [reflexivity |].
  rewrite H1, H2, H3, Z1, Z2, length_combine, <- Hl, Nat.min_id.
  repeat split.
  - eapply Forall_impl; [| exact H4]. now intros m [? _].
  - unfold index_ids, Faiss.ids. simpl. rewrite map_app. f_equal.
    + now destruct (index st).
    + rewrite map_fst_zip by (rewrite length_map; congruence).
      symmetry. apply store_metadata_ids; [reflexivity |].
      rewrite length_combine, length_map. lia.
Qed.



Lemma find_app_first {A : Type} (f : A -> bool) (l1 l2 : list A) :
  find f (l1 ++ l2)
  = match find f l1 with
    | Some x => Some x
    | None => find f l2
    end.
Proof.
  induction l1 as [|a l1 IH]; [reflexivity |].
  simpl. now destruct (f a).
Qed.

Lemma lookup_shadow md1 md2 i :
  (forall m2, In m2 md2 -> exists m1, In m1 md1 /\ embedding_id m1 = embedding_id m2) ->
  lookup (md1 ++ md2) i = lookup md1 i.
Proof.
  intros Hdup. unfold lookup. rewrite find_app_first.
  destruct (find _ md1) as [m1|] eqn:E1; [reflexivity |].
  destruct (find _ md2) as [m2|] eqn:E2; [| reflexivity].
  apply find_some in E2. destruct E2 as [Hm2 Em2].
  destruct (Hdup m2 Hm2) as [m1 [Hm1 Em1]].
  apply (find_none _ _ E1) in Hm1. rewrite Em1, Em2 in Hm1. discriminate.
Qed.

(** X10.  Records appended under embedding ids that are already present are
    never returned: the results are those of the store without them. *)
Theorem duplicates_are_shadowed :
  forall (md1 md2 : list metadata) (hits : list (Q * Z)),
    (forall m2, In m2 md2 ->
                exists m1, In m1 md1 /\ embedding_id m1 = embedding_id m2) ->
    collect (md1 ++ md2) hits = collect md1 hits.
Proof.
  intros md1 md2 hits Hdup.
  induction hits as [|[s i] hits IH]; [reflexivity |].
  simpl. now rewrite IH, (lookup_shadow md1 md2 i Hdup).
Qed.

End ProductionMore.


Lemma process_failure_is_clean_witness :
  @ProductionVectorDB.process_document_async Sample.toy Sample.doc_without_id Sample.once
  = (Py.Raises "'id'", Sample.once)
  /\ exists r,
       fst (@ProductionVectorDB.process_document_async Sample.toy_offline Sample.doc1
              Sample.once)
       = Py.Returns r
       /\ r = ProductionVectorDB.Error
                "Failed to process document d1: embedder unreachable"
       /\ ProductionVectorDB.chunk_metadata
            (snd (@ProductionVectorDB.process_document_async Sample.toy_offline
                    Sample.doc1 Sample.once))
          = ProductionVectorDB.chunk_metadata Sample.once.
Proof.
  split.
  - apply (@process_failure_is_clean Sample.toy Sample.doc_without_id Sample.once).
    reflexivity.
  - destruct (@process_failure_is_clean Sample.toy_offline Sample.doc1 Sample.once)
      as [_ H].
    destruct (H "d1" eq_refl) as [r [Hr Hclean]].
    exists r. split; [exact Hr |].
    assert (E : r = ProductionVectorDB.Error
                      "Failed to process document d1: embedder unreachable")
      by (vm_compute in Hr; now inversion Hr).
    split; [exact E |]. exact (proj1 (Hclean _ E)).
Defined.

Lemma process_completed_appends_witness :
  exists new,
    ProductionVectorDB.chunk_metadata Sample.twice
    = ProductionVectorDB.chunk_metadata Sample.once ++ new
    /\ map ProductionVectorDB.chunk_id new = ["d1_chunk_0"].
Proof.
  destruct (@process_completed_appends Sample.toy Sample.doc1 Sample.once "d1" 1 1
              eq_refl) as [_ [_ [_ [new [H1 [_ [_ [H2 _]]]]]]]].
  exists new. split; [exact H1 | exact H2].
Defined.


Lemma duplicates_are_shadowed_witness :
  ProductionVectorDB.collect (ProductionVectorDB.chunk_metadata Sample.twice)
    [((1 # 2)%Q, 431964211%Z)]
  = ProductionVectorDB.collect (ProductionVectorDB.chunk_metadata Sample.once)
      [((1 # 2)%Q, 431964211%Z)].
Proof.
  apply (duplicates_are_shadowed
           (ProductionVectorDB.chunk_metadata Sample.once)
           (ProductionVectorDB.chunk_metadata Sample.once)
           [((1 # 2)%Q, 431964211%Z)]).
  intros m2 Hm2. exists m2. split; [exact Hm2 | reflexivity].
Defined.

(** ** [ScriblProductionSystem]: ingestion and answers *)

Section ScriblMore.
Import PyStr Chunker Py ScriblProductionSystem ScriblProductionSystemSpec.
Context `{C : Collaborators} `{X : Extractors}.

(** X11.  [process_document_async] reads the keys [id] and [type], in this
    order, before its handler is in place: without one of them the call
    raises the [KeyError] of the first that is missing and the fields stay
    as they were.  With both keys the call returns in every case, and when
    it reports a failure no metadata record and no index row was added. *)
Theorem scribl_process_failure_is_clean :
  forall (d : document) (st : state vec),
    (id d = None -> process_document_async d st = (Raises "'id'", st))
    /\ (forall did : string,
          id d = Some did -> type d = None ->
          process_document_async d st = (Raises "'type'", st))
    /\ (forall did dtype : string,
          id d = Some did -> type d = Some dtype ->
          exists r,
            fst (process_document_async d st) = Returns r
            /\ forall error,
                 r = Failed error ->
                 chunk_metadata (snd (process_document_async d st))
                 = chunk_metadata st
                 /\ index_ids (snd (process_document_async d st)) = index_ids st).
Proof.
  intros d st. destruct (scribl_process_document_async_no_key d st) as [H1 H2].
  split; [exact H1 |]. split; [exact H2 |].
  intros did dtype Hid Hty.
  rewrite (scribl_process_document_async_cases d did dtype st Hid Hty).
  destruct (fst (extract _ _ _ st)) as [x|e];
    [| eexists; split; [reflexivity | now intros]].
  destruct (negb _); [eexists; split; [reflexivity | now intros] |]. cbv zeta.
  destruct (encode _) as [e1|e]; [| eexists; split; [reflexivity | now intros]].
  destruct (normalize e1) as [e2|e]; [| eexists; split; [reflexivity | now intros]].
  destruct (Nat.eqb _ _); eexists; (split; [reflexivity |]); intros error Hm;
    [discriminate Hm |].
  split; [reflexivity |]. unfold index_ids. simpl. now destruct (index st).
Qed.

(** X12.  A document whose type is none of [pdf], [url], [youtube] is
    reported as failed with the message of the [ValueError]; no extractor
    and no embedder is consulted and the store is unchanged. *)
Theorem scribl_unsupported_type_rejected :
  forall (d : document) (st : state vec) (did dtype : string),
    id d = Some did -> type d = Some dtype ->
    dtype <> "pdf" -> dtype <> "url" -> dtype <> "youtube" ->
    process_document_async d st
    = (Returns (Failed ("Failed to process document " ++ did
                          ++ ": Unsupported document type: " ++ dtype)%string),
       st).
Proof.
  intros d st did dtype Hid Hty H1 H2 H3.
  rewrite (scribl_process_document_async_cases d did dtype st Hid Hty).
  unfold extract.
  apply String.eqb_neq in H1, H2, H3. rewrite H1, H2, H3. reflexivity.
Qed.

Lemma answer_question_cases question context_limit (st : state vec) rs :
  fst (semantic_search question context_limit st) = Returns rs ->
  answer_question question context_limit st
  = (Returns
       match rs with
       | [] => mk_answer_result no_information [] 0%Q
       | top :: _ =>
           if truthy openai_api_key
           then match chat_completion system_prompt
                        (user_prompt (context_of rs) question) with
                | Returns response =>
                    mk_answer_result (strip response) (map source_of rs)
                      (py_min (similarity_score top) 1%Q)
                | Raises _ => mk_answer_result error_answer [] 0%Q
                end
           else mk_answer_result (fallback_answer question rs) (map source_of rs)
                  (py_min (similarity_score top) 1%Q)
       end, st).
Proof.
  intros Hrs.
  destruct (scribl_semantic_search_returns question context_limit st) as [rs' Hrs'].
  rewrite Hrs' in Hrs. simpl in Hrs. inversion Hrs; subst rs'. clear Hrs.
  unfold answer_question, try_except. unfold bind at 1. rewrite Hrs'.
  destruct rs as [|top rest]; [reflexivity |].
  unfold bind, call, ret.
  destruct (truthy openai_api_key); [| reflexivity].
  now destruct (chat_completion _ _).
Qed.

Lemma substring_length_le (s : string) : forall n m,
  String.length (String.substring n m s) <= m.
Proof.
  induction s as [|c s IH]; intros [|n] [|m]; simpl; try lia.
  - specialize (IH 0 m). lia.
  - apply IH.
  - apply IH.
Qed.

Lemma excerpt_bound (r : search_result) :
  String.length (excerpt (source_of r)) <= 203.
Proof.
  unfold source_of. cbn [excerpt].
  destruct (Nat.ltb_spec 200 (String.length (r_content r))) as [H|H]; [| lia].
  rewrite length_append. pose proof (substring_length_le (r_content r) 0 200).
  unfold take. simpl String.length at 2. lia.
Qed.

(** X13.  The sources of an answer are the retrieved chunks, one each and in
    their order, with the chunk's score; an excerpt has at most 203
    characters. *)
Theorem answer_sources_mirror_results :
  forall (question : string) (context_limit : Z) (st : state vec)
         (a : answer_result) (s : source),
    fst (answer_question question context_limit st) = Returns a ->
    In s (sources a) ->
    String.length (excerpt s) <= 203
    /\ exists rs r,
         fst (semantic_search question context_limit st) = Returns rs
         /\ sources a = map source_of rs
         /\ In r rs
         /\ s_document s = r_document_name r
         /\ s_type s = r_document_type r
         /\ similarity s = similarity_score r.
Proof.
  intros question context_limit st a s Ha Hs.
  destruct (scribl_semantic_search_returns question context_limit st) as [rs Hrs].
  assert (Hrs' : fst (semantic_search question context_limit st) = Returns rs)
    by now rewrite Hrs.
  rewrite (answer_question_cases question context_limit st rs Hrs') in Ha.
  simpl in Ha.
  assert (Hmap : sources a = map source_of rs ->
            String.length (excerpt s) <= 203
            /\ exists rs0 r,
                 Returns rs = Returns rs0
                 /\ sources a = map source_of rs0
                 /\ In r rs0
                 /\ s_document s = r_document_name r
                 /\ s_type s = r_document_type r
                 /\ similarity s = similarity_score r).
  { intros E. rewrite E in Hs. apply in_map_iff in Hs.
    destruct Hs as [r [<- Hr]]. split; [apply excerpt_bound |].
    exists rs, r. repeat split; assumption. }
  rewrite Hrs'.
  destruct rs as [|top rest]; [inversion Ha; subst a; destruct Hs |].
  destruct (truthy openai_api_key).
  - destruct (chat_completion _ _); inversion Ha; subst a;
      [now apply Hmap | destruct Hs].
  - inversion Ha; subst a. now apply Hmap.
Qed.

(** X14.  Without an API key the language model is never asked: the answer
    is the fixed insufficient-information text when nothing was retrieved
    and the extract built from the retrieved chunks otherwise, never the
    error answer. *)
Theorem fallback_without_api_key :
  forall (question : string) (context_limit : Z) (st : state vec),
    truthy openai_api_key = false ->
    exists rs,
      fst (semantic_search question context_limit st) = Returns rs
      /\ fst (answer_question question context_limit st)
         = Returns
             match rs with
             | [] => mk_answer_result no_information [] 0%Q
             | top :: _ =>
                 mk_answer_result (fallback_answer question rs) (map source_of rs)
                   (py_min (similarity_score top) 1%Q)
             end.
Proof.
  intros question context_limit st Hkey.
  destruct (scribl_semantic_search_returns question context_limit st) as [rs Hrs].
  assert (Hrs' : fst (semantic_search question context_limit st) = Returns rs)
    by now rewrite Hrs.
  exists rs. split; [exact Hrs' |].
  rewrite (answer_question_cases question context_limit st rs Hrs'), Hkey.
  reflexivity.
Qed.

End ScriblMore.

Lemma scribl_process_failure_is_clean_witness :
  @ScriblProductionSystem.process_document_async Sample.toy Sample.toy_extractors
    Sample.sdoc_without_id Sample.sonce
  = (Py.Raises "'id'", Sample.sonce)
  /\ @ScriblProductionSystem.process_document_async Sample.toy Sample.toy_extractors
       Sample.sdoc_without_type Sample.sonce
     = (Py.Raises "'type'", Sample.sonce)
  /\ exists r,
       fst (@ScriblProductionSystem.process_document_async Sample.toy_offline
              Sample.toy_extractors Sample.sdoc1 Sample.sonce)
       = Py.Returns r
       /\ r = ScriblProductionSystem.Failed
                "Failed to process document d1: embedder unreachable"
       /\ ScriblProductionSystem.chunk_metadata
            (snd (@ScriblProductionSystem.process_document_async Sample.toy_offline
                    Sample.toy_extractors Sample.sdoc1 Sample.sonce))
          = ScriblProductionSystem.chunk_metadata Sample.sonce.
Proof.
  destruct (@scribl_process_failure_is_clean Sample.toy Sample.toy_extractors
              Sample.sdoc_without_id Sample.sonce) as [H1 _].
  destruct (@scribl_process_failure_is_clean Sample.toy Sample.toy_extractors
              Sample.sdoc_without_type Sample.sonce) as [_ [H2 _]].
  destruct (@scribl_process_failure_is_clean Sample.toy_offline Sample.toy_extractors
              Sample.sdoc1 Sample.sonce) as [_ [_ H3]].
  split; [exact (H1 eq_refl) |]. split; [exact (H2 "d1" eq_refl eq_refl) |].
  destruct (H3 "d1" "pdf" eq_refl eq_refl) as [r [Hr Hclean]].
  exists r. split; [exact Hr |].
  assert (E : r = ScriblProductionSystem.Failed
                    "Failed to process document d1: embedder unreachable")
    by (vm_compute in Hr; now inversion Hr).
  split; [exact E |]. exact (proj1 (Hclean _ E)).
Defined.

Lemma scribl_unsupported_type_rejected_witness :
  fst (@ScriblProductionSystem.process_document_async Sample.toy Sample.toy_extractors
         (ScriblProductionSystem.mk_document (Some "d9") (Some "docx") None None None)
         Sample.sonce)
  = Py.Returns (ScriblProductionSystem.Failed
                  "Failed to process document d9: Unsupported document type: docx").
Proof.
  rewrite (@scribl_unsupported_type_rejected Sample.toy Sample.toy_extractors
             (ScriblProductionSystem.mk_document (Some "d9") (Some "docx") None None
                None)
             Sample.sonce "d9" "docx");
    [reflexivity | reflexivity | reflexivity
     | discriminate | discriminate | discriminate].
Defined.

Lemma answer_sources_mirror_results_witness :
  String.length
    (ScriblProductionSystem.excerpt
       (ScriblProductionSystem.mk_source "Notes" "pdf" (1 # 2)%Q
          "Sentence one. Sentence two.")) <= 203.
Proof.
  apply (@answer_sources_mirror_results Sample.toy "query" 5 Sample.sonce
           (ScriblProductionSystem.mk_answer_result
              (ScriblProductionSystem.fallback_answer "query"
                 [ScriblProductionSystem.mk_search_result "Sentence one. Sentence two."
                    "Notes" "pdf" 0 (1 # 2)%Q "d1" "d1_chunk_0" [("title", "Notes")]])
              [ScriblProductionSystem.mk_source "Notes" "pdf" (1 # 2)%Q
                 "Sentence one. Sentence two."]
              (1 # 2)%Q));
    [reflexivity | left; reflexivity].
Defined.

Lemma fallback_without_api_key_witness :
  exists rs,
    fst (@ScriblProductionSystem.semantic_search Sample.toy "query" 5 Sample.sonce)
    = Py.Returns rs
    /\ List.length rs = 1.
Proof.
  destruct (@fallback_without_api_key Sample.toy "query" 5 Sample.sonce eq_refl)
    as [rs [H _]].
  exists rs. split; [exact H |].
  vm_compute in H. inversion H. reflexivity.
Defined.

(** ** [VectorDBSetup] *)

Section VectorDBSetupMore.
Import PyStr Py VectorDBSetup VectorDBSetupSpec.
Context `{C : Collaborators}.

(** X15.  [search_similar] has no handler: with an index in place, whatever
    the embedder or the index raises reaches the caller, and the fields stay
    as they were. *)
Theorem search_similar_propagates :
  forall (query : string) (k : Z) (st : state vec) (ix : Faiss.index vec) (e : string),
    index st = Some ix ->
    index_hits ix query k = Raises e ->
    search_similar query k st = (Raises e, st).
Proof.
  intros query k st ix e Hix Hh. now rewrite search_similar_cases, Hix, Hh.
Qed.

Lemma chunk_loop_windows fuel words chunk_size step : forall i,
  chunk_loop fuel words chunk_size step i
  = map (join " ") (window_loop fuel words chunk_size step i).
Proof.
  induction fuel as [|fuel IH]; intros i; [reflexivity |].
  simpl. destruct (i <? _)%Z; [| reflexivity].
  destruct (_ >=? _)%Z; [reflexivity |]. simpl. now rewrite IH.
Qed.

Lemma slice_window {A : Type} (words : list A) (i chunk_size : Z) :
  (0 <= i)%Z -> (0 <= chunk_size)%Z -> (i <= Z.of_nat (List.length words))%Z ->
  slice i (i + chunk_size) words
  = firstn (Z.to_nat chunk_size) (skipn (Z.to_nat i) words).
Proof.
  intros Hi Hc Hn. unfold slice.
  assert (E1 : (i <? 0)%Z = false) by (apply Z.ltb_ge; lia).
  assert (E2 : (i + chunk_size <? 0)%Z = false) by (apply Z.ltb_ge; lia).
  rewrite E1, E2. rewrite (Z.min_l i) by lia.
  destruct (Z.le_ge_cases (i + chunk_size) (Z.of_nat (List.length words))) as [H|H].
  - rewrite Z.min_l by lia. f_equal. lia.
  - rewrite Z.min_r by lia.
    rewrite !firstn_all2; try reflexivity; rewrite length_skipn; lia.
Qed.

Lemma in_window {A : Type} (words : list A) (i n j : nat) (d : A) :
  i <= j < List.length words -> j < i + n ->
  In (nth j words d) (firstn n (skipn i words)).
Proof.
  intros Hj Hn.
  assert (E : nth j words d = nth (j - i) (firstn n (skipn i words)) d).
  { rewrite <- (firstn_skipn i words) at 1.
    rewrite app_nth2 by (rewrite length_firstn; lia).
    rewrite length_firstn, Nat.min_l by lia.
    rewrite <- (firstn_skipn n (skipn i words)) at 1.
    apply app_nth1. rewrite length_firstn, length_skipn. lia. }
  rewrite E. apply nth_In. rewrite length_firstn, length_skipn. lia.
Qed.

Lemma window_loop_covers words chunk_size step (d : string) :
  (0 < step <= chunk_size)%Z ->
  forall fuel i (j : nat),
    (0 <= i)%Z ->
    (Z.of_nat (List.length words) - i <= Z.of_nat fuel)%Z ->
    (i <= Z.of_nat j)%Z -> j < List.length words ->
    exists w, In w (window_loop fuel words chunk_size step i)
              /\ In (nth j words d) w.
Proof.
  intros Hstep. induction fuel as [|fuel IH]; intros i j Hi Hfuel Hij Hj; [lia |].
  simpl. assert (E : (i <? Z.of_nat (List.length words))%Z = true)
    by (apply Z.ltb_lt; lia).
  rewrite E, slice_window by lia.
  destruct (Z.geb_spec (i + chunk_size) (Z.of_nat (List.length words))) as [H|H].
  - eexists. split; [now left |]. apply in_window; lia.
  - destruct (Z.lt_ge_cases (Z.of_nat j) (i + chunk_size)) as [Hin|Hout].
    + eexists. split; [now left |]. apply in_window; lia.
    + destruct (IH (i + step)%Z j) as [w [Hw Hjw]]; try lia.
      exists w. split; [now right | exact Hjw].
Qed.

Lemma window_loop_sizes words chunk_size step :
  (0 < step)%Z -> (0 < chunk_size)%Z ->
  forall fuel i w,
    (0 <= i)%Z ->
    In w (window_loop fuel words chunk_size step i) ->
    1 <= List.length w <= Z.to_nat chunk_size
    /\ exists k, w = firstn (Z.to_nat chunk_size) (skipn k words).
Proof.
  intros Hstep Hcs. induction fuel as [|fuel IH]; intros i w Hi Hw; [destruct Hw |].
  simpl in Hw.
  destruct (Z.ltb_spec i (Z.of_nat (List.length words))) as [Hlt|Hge];
    [| destruct Hw].
  rewrite slice_window in Hw by lia.
  assert (Hfirst : 1 <= List.length (firstn (Z.to_nat chunk_size)
                                       (skipn (Z.to_nat i) words))
                   <= Z.to_nat chunk_size)
    by (rewrite length_firstn, length_skipn; lia).
  destruct (_ >=? _)%Z.
  - destruct Hw as [<- | []]. split; [exact Hfirst | now eexists].
  - destruct Hw as [<- | Hw]; [split; [exact Hfirst | now eexists] |].
    apply (IH (i + step)%Z); [lia | exact Hw].
Qed.

(** X16.  With [0 <= overlap < chunk_size], [chunk_text] does not raise; each
    chunk is the join of a window of at least one and at most [chunk_size]
    consecutive words of the text, and every word of the text lies in some
    window. *)
Theorem chunk_text_covers_words :
  forall (Obj : Type) (text : string) (chunk_size overlap : Z) (st : Obj),
    (0 <= overlap < chunk_size)%Z ->
    chunk_text text chunk_size overlap st
    = (Returns (map (join " ") (windows text chunk_size overlap)), st)
    /\ (forall w, In w (windows text chunk_size overlap) ->
                  1 <= List.length w <= Z.to_nat chunk_size
                  /\ exists k, w = firstn (Z.to_nat chunk_size)
                                     (skipn k (split_ws text "")))
    /\ (forall word, In word (split_ws text "") ->
                     exists w, In w (windows text chunk_size overlap) /\ In word w).
Proof.
  intros Obj text chunk_size overlap st Hov. split; [| split].
  - unfold chunk_text, windows.
    assert (E1 : (chunk_size - overlap =? 0)%Z = false) by (apply Z.eqb_neq; lia).
    assert (E2 : (chunk_size - overlap <? 0)%Z = false) by (apply Z.ltb_ge; lia).
    now rewrite E1, E2, chunk_loop_windows.
  - intros w H.
    apply (window_loop_sizes (split_ws text "") chunk_size (chunk_size - overlap)
             ltac:(lia) ltac:(lia) _ 0%Z w ltac:(lia) H).
  - intros word Hw. destruct (In_nth _ _ EmptyString Hw) as [j [Hj <-]].
    apply window_loop_covers; lia.
Qed.

(** X17.  The degenerate parameters: equal [chunk_size] and [overlap] raise
    the [ValueError] of [range]; an [overlap] above [chunk_size] returns no
    chunk at all, whatever the text; and a text without words has no
    chunk. *)
Theorem chunk_text_degenerate :
  forall (Obj : Type) (text : string) (chunk_size overlap : Z) (st : Obj),
    (chunk_size = overlap ->
     chunk_text text chunk_size overlap st
     = (Raises "ValueError: range() arg 3 must not be zero", st))
    /\ ((chunk_size < overlap)%Z ->
        chunk_text text chunk_size overlap st = (Returns [], st))
    /\ (split_ws text "" = [] -> chunk_size <> overlap ->
        chunk_text text chunk_size overlap st = (Returns [], st)).
Proof.
  intros Obj text chunk_size overlap st. unfold chunk_text. split; [| split].
  - intros ->. now rewrite Z.sub_diag.
  - intros H.
    assert (E1 : (chunk_size - overlap =? 0)%Z = false) by (apply Z.eqb_neq; lia).
    assert (E2 : (chunk_size - overlap <? 0)%Z = true) by (apply Z.ltb_lt; lia).
    now rewrite E1, E2.
  - intros Hw Hne. rewrite Hw.
    assert (E1 : (chunk_size - overlap =? 0)%Z = false) by (apply Z.eqb_neq; lia).
    rewrite E1. now destruct (_ <? 0)%Z.
Qed.

(** X18.  A text of at most [chunk_size] words is a single chunk, its words
    joined by single blanks. *)
Theorem short_text_is_one_chunk :
  forall (Obj : Type) (text : string) (chunk_size overlap : Z) (st : Obj),
    (overlap < chunk_size)%Z ->
    split_ws text "" <> [] ->
    (Z.of_nat (List.length (split_ws text "")) <= chunk_size)%Z ->
    chunk_text text chunk_size overlap st
    = (Returns [join " " (split_ws text "")], st).
Proof.
  intros Obj text chunk_size overlap st Hov Hne Hlen. unfold chunk_text.
  assert (E1 : (chunk_size - overlap =? 0)%Z = false) by (apply Z.eqb_neq; lia).
  assert (E2 : (chunk_size - overlap <? 0)%Z = false) by (apply Z.ltb_ge; lia).
  rewrite E1, E2.
  destruct (split_ws text "") as [|w ws] eqn:E; [congruence |].
  cbn [List.length chunk_loop].
  assert (E3 : (0 <? Z.of_nat (S (List.length ws)))%Z = true)
    by (apply Z.ltb_lt; lia).
  assert (E4 : (0 + chunk_size >=? Z.of_nat (S (List.length ws)))%Z = true)
    by (apply Z.geb_le; simpl List.length in Hlen; lia).
  rewrite E3, E4, slice_window by (simpl List.length in *; lia).
  rewrite skipn_O, firstn_all2 by (simpl List.length in *; lia).
  reflexivity.
Qed.

Lemma chunk_text_default (Obj : Type) (d : document) (st : Obj) :
  chunk_text (content d) 500 50 st = (Returns (doc_chunks d), st).
Proof.
  unfold chunk_text, doc_chunks, windows. simpl Z.sub.
  now rewrite chunk_loop_windows.
Qed.

Lemma add_chunks_spec d chunks : forall i a (st : state vec),
  add_chunks d i chunks a st
  = (Returns (fst a ++ chunks, snd a ++ doc_chunk_ids_from d i (List.length chunks)),
     mk_state (index st) (document_metadata st ++ doc_records_from d i chunks)).
Proof.
  induction chunks as [|c chunks IH]; intros i a st.
  - destruct a, st. simpl. unfold ret, doc_chunk_ids_from. simpl.
    now rewrite !app_nil_r.
  - simpl. unfold bind at 1 2. unfold get, put. rewrite IH. simpl.
    unfold doc_chunk_ids_from. simpl. now rewrite <- !app_assoc.
Qed.

Lemma add_docs_spec docs : forall a (st : state vec),
  add_docs docs a st
  = (Returns (fst a ++ flat_map doc_chunks docs,
              snd a ++ flat_map doc_chunk_ids docs),
     mk_state (index st) (document_metadata st ++ flat_map doc_records docs)).
Proof.
  induction docs as [|d docs IH]; intros a st.
  - destruct a, st. simpl. unfold ret. simpl. now rewrite !app_nil_r.
  - simpl. unfold bind at 1. rewrite chunk_text_default.
    unfold bind at 1. rewrite add_chunks_spec, IH. simpl.
    unfold doc_chunk_ids, doc_records. now rewrite <- !app_assoc.
Qed.

(** The effect of [add_documents], branch by branch. *)
Lemma add_documents_cases docs (st : state vec) :
  let texts := flat_map doc_chunks docs in
  let ids := map numeric_id (flat_map doc_chunk_ids docs) in
  let stored := mk_state (Some (index_rows st))
                  (document_metadata st ++ flat_map doc_records docs) in
  add_documents docs st
  = match encode texts with
    | Raises e => (Raises e, stored)
    | Returns e1 =>
        match normalize e1 with
        | Raises e => (Raises e, stored)
        | Returns e2 =>
            if Nat.eqb (List.length e2) (List.length ids)
            then (Returns tt,
                  mk_state
                    (Some (Faiss.mk_index (Faiss.sub_index (index_rows st))
                             (Faiss.rows (index_rows st) ++ combine ids e2)))
                    (document_metadata st ++ flat_map doc_records docs))
            else (Raises "not same nb of vectors as ids", stored)
        end
    end.
Proof.
  intros texts ids stored. unfold add_documents.
  unfold bind at 1. unfold get at 1.
  assert (H : forall ix (st0 : state vec),
            index st0 = Some ix ->
            document_metadata st0 = document_metadata st ->
            bind (add_docs docs ([], []))
              (fun a =>
                 bind (call (encode (fst a)))
                   (fun embeddings =>
                      bind (call (normalize embeddings))
                        (fun embeddings0 =>
                           bind (call (Faiss.add_with_ids ix embeddings0
                                         (map numeric_id (snd a))))
                             (fun ix' =>
                                bind get
                                  (fun st1 =>
                                     put (mk_state (Some ix')
                                            (document_metadata st1))))))) st0
            = match encode texts with
              | Raises e =>
                  (Raises e, mk_state (Some ix)
                               (document_metadata st ++ flat_map doc_records docs))
              | Returns e1 =>
                  match normalize e1 with
                  | Raises e =>
                      (Raises e, mk_state (Some ix)
                                   (document_metadata st ++ flat_map doc_records docs))
                  | Returns e2 =>
                      if Nat.eqb (List.length e2) (List.length ids)
                      then (Returns tt,
                            mk_state
                              (Some (Faiss.mk_index (Faiss.sub_index ix)
                                       (Faiss.rows ix ++ combine ids e2)))
                              (document_metadata st ++ flat_map doc_records docs))
                      else (Raises "not same nb of vectors as ids",
                            mk_state (Some ix)
                              (document_metadata st ++ flat_map doc_records docs))
                  end
              end).
  { intros ix st0 Hix Hmd. unfold bind at 1. rewrite add_docs_spec. simpl fst.
    simpl snd. rewrite Hix, Hmd. fold texts. fold ids.
    unfold bind, call, get, put, Faiss.add_with_ids.
    destruct (encode texts) as [e1|e]; [| reflexivity].
    destruct (normalize e1) as [e2|e]; [| reflexivity].
    destruct (Nat.eqb _ _); reflexivity. }
  subst stored. unfold index_rows.
  destruct (index st) as [ix|] eqn:Eix.
  - unfold bind at 1, ret at 1. now apply H.
  - unfold bind at 1 2, put, ret. now apply H.
Qed.

Lemma doc_records_chunk_ids d chunks : forall i,
  map chunk_id (doc_records_from d i chunks)
  = doc_chunk_ids_from d i (List.length chunks).
Proof.
  induction chunks as [|c chunks IH]; intros i; [reflexivity |].
  simpl. rewrite IH. reflexivity.
Qed.

Lemma records_chunk_ids docs :
  map chunk_id (flat_map doc_records docs) = flat_map doc_chunk_ids docs.
Proof.
  induction docs as [|d docs IH]; [reflexivity |].
  simpl. rewrite map_app, IH. f_equal. apply doc_records_chunk_ids.
Qed.

(** X19.  [add_documents] stores the metadata records before it embeds: when
    the call raises, the records of all chunks are already in
    [document_metadata] while the index received no row. *)
Theorem add_documents_raises_after_storing :
  forall (docs : list document) (st st' : state vec) (e : string),
    add_documents docs st = (Raises e, st') ->
    document_metadata st' = document_metadata st ++ flat_map doc_records docs
    /\ index st' = Some (index_rows st).
Proof.
  intros docs st st' e. rewrite add_documents_cases. cbv zeta.
  destruct (encode _) as [e1|e0]; [| now inversion 1].
  destruct (normalize e1) as [e2|e0]; [| now inversion 1].
  destruct (Nat.eqb _ _); [discriminate | now inversion 1].
Qed.

(** X20.  When [add_documents] returns, it appended one record per chunk of
    every document, in order, and the index received exactly the ids
    [hash(chunk_id) % 2**31] of these records, in the same order behind the
    rows it had. *)
Theorem add_documents_appends :
  forall (docs : list document) (st st' : state vec),
    add_documents docs st = (Returns tt, st') ->
    document_metadata st' = document_metadata st ++ flat_map doc_records docs
    /\ Faiss.ids (index_rows st')
       = Faiss.ids (index_rows st)
           ++ map (fun m => numeric_id (chunk_id m)) (flat_map doc_records docs).
Proof.
  intros docs st st'. rewrite add_documents_cases. cbv zeta.
  destruct (encode _) as [e1|e0]; [| discriminate].
  destruct (normalize e1) as [e2|e0]; [| discriminate].
  destruct (Nat.eqb_spec (List.length e2)
              (List.length (map numeric_id (flat_map doc_chunk_ids docs))))
    as [E|E]; [| discriminate].
  intros H. inversion H; subst st'. clear H. split; [reflexivity |].
  unfold index_rows at 1. cbn [index]. unfold Faiss.ids. cbn [Faiss.rows].
  rewrite map_app, map_fst_zip by exact E.
  now rewrite <- records_chunk_ids, map_map.
Qed.

End VectorDBSetupMore.

Lemma search_similar_propagates_witness :
  @VectorDBSetup.search_similar Sample.toy_offline "query" 3 Sample.vonce
  = (Py.Raises "embedder unreachable", Sample.vonce).
Proof.
  apply (@search_similar_propagates Sample.toy_offline "query" 3 Sample.vonce
           (Sample.flat_index [(431964211%Z, tt)]) "embedder unreachable");
    reflexivity.
Defined.

Lemma chunk_text_covers_words_witness :
  @VectorDBSetup.chunk_text unit "a b c d e" 3 1 tt
  = (Py.Returns ["a b c"; "c d e"], tt).
Proof.
  destruct (chunk_text_covers_words unit "a b c d e" 3 1 tt ltac:(lia)) as [H _].
  rewrite H. reflexivity.
Defined.

Lemma short_text_is_one_chunk_witness :
  @VectorDBSetup.chunk_text unit "  one   two " 500 50 tt
  = (Py.Returns ["one two"], tt).
Proof.
  rewrite (short_text_is_one_chunk unit "  one   two " 500 50 tt);
    [reflexivity | lia | discriminate | vm_compute; discriminate].
Defined.

Lemma add_documents_raises_after_storing_witness :
  List.length (VectorDBSetup.document_metadata
                 (snd (@VectorDBSetup.add_documents Sample.toy_offline [Sample.vdoc1]
                         VectorDBSetup.initial))) = 1
  /\ VectorDBSetup.index
       (snd (@VectorDBSetup.add_documents Sample.toy_offline [Sample.vdoc1]
               VectorDBSetup.initial)) = Some (Sample.flat_index []).
Proof.
  destruct (@add_documents_raises_after_storing Sample.toy_offline [Sample.vdoc1]
              VectorDBSetup.initial
              (snd (@VectorDBSetup.add_documents Sample.toy_offline [Sample.vdoc1]
                      VectorDBSetup.initial))
              "embedder unreachable" eq_refl) as [H1 H2].
  split; [rewrite H1; reflexivity | exact H2].
Defined.

Lemma add_documents_appends_witness :
  Faiss.ids (@VectorDBSetupSpec.index_rows Sample.toy Sample.vtwice)
  = [431964211%Z; 431964211%Z].
Proof.
  destruct (@add_documents_appends Sample.toy [Sample.vdoc1] Sample.vonce
              Sample.vtwice eq_refl) as [_ H].
  etransitivity; [exact H | reflexivity].
Defined.


(** ** Subtitles and key points *)

Section TextMore.
Import PyStr PyText.

Lemma split_char_cons c s : exists p ps, split_char c s = p :: ps.
Proof.
  induction s as [|x s [p [ps IH]]]; [now exists EmptyString, [] |].
  simpl. destruct (Ascii.eqb x c); [now eexists; eexists |].
  rewrite IH. now eexists; eexists.
Qed.

Lemma split_char_app c a b :
  split_char c (a ++ String c b) = split_char c a ++ split_char c b.
Proof.
  induction a as [|x a IH].
  - simpl. now rewrite Ascii.eqb_refl.
  - simpl. destruct (Ascii.eqb x c); [now rewrite IH |].
    rewrite IH. destruct (split_char_cons c a) as [p [ps ->]]. reflexivity.
Qed.

Lemma text_lines_app l1 l2 :
  ScriblText.text_lines (l1 ++ l2)
  = ScriblText.text_lines l1 ++ ScriblText.text_lines l2.
Proof.
  induction l1 as [|x l1 IH]; [reflexivity |].
  simpl. destruct (ScriblText.keep_line (strip x)); simpl; now rewrite IH.
Qed.

Lemma text_lines_truthy lines :
  Forall (fun line => truthy line = true) (ScriblText.text_lines lines).
Proof.
  induction lines as [|x lines IH]; [constructor |].
  simpl. destruct (ScriblText.keep_line (strip x)) eqn:E; [| exact IH].
  constructor; [| exact IH]. unfold ScriblText.keep_line in E.
  now destruct (truthy (strip x)).
Qed.

Lemma join_app sep l1 l2 :
  l1 <> [] -> l2 <> [] ->
  join sep (l1 ++ l2) = (join sep l1 ++ sep ++ join sep l2)%string.
Proof.
  intros H1 H2. induction l1 as [|x l1 IH]; [congruence |].
  destruct l1 as [|y l1].
  - simpl. destruct l2; [congruence | reflexivity].
  - change (join sep ((x :: y :: l1) ++ l2))
      with (x ++ sep ++ join sep ((y :: l1) ++ l2))%string.
    rewrite IH by discriminate.
    change (join sep (x :: y :: l1)) with (x ++ sep ++ join sep (y :: l1))%string.
    now rewrite !append_assoc.
Qed.

Lemma join_truthy sep l :
  l <> [] -> Forall (fun x => truthy x = true) l -> truthy (join sep l) = true.
Proof.
  intros Hne HF. destruct l as [|x l]; [congruence |].
  inversion HF as [|? ? Hx _]; subst.
  destruct l; [exact Hx |].
  change (join sep (x :: s :: l)) with (x ++ sep ++ join sep (s :: l))%string.
  destruct x; [discriminate | reflexivity].
Qed.

(** X21.  Subtitles parse line block by line block: the text of two parts
    separated by a newline is the text of the first part, a blank, and the
    text of the second part; a part without text adds nothing, not even
    the blank. *)
Theorem parse_subtitle_concat :
  forall a b : string,
    ScriblText.parse_subtitle_content (a ++ String "010"%char b)
    = match ScriblText.parse_subtitle_content a,
            ScriblText.parse_subtitle_content b with
      | EmptyString, tb => tb
      | ta, EmptyString => ta
      | ta, tb => (ta ++ " " ++ tb)%string
      end.
Proof.
  intros a b. unfold ScriblText.parse_subtitle_content.
  rewrite split_char_app, text_lines_app.
  set (la := ScriblText.text_lines (split_char "010"%char a)).
  set (lb := ScriblText.text_lines (split_char "010"%char b)).
  pose proof (text_lines_truthy (split_char "010"%char a)) as Ha. fold la in Ha.
  pose proof (text_lines_truthy (split_char "010"%char b)) as Hb. fold lb in Hb.
  destruct la as [|x la].
  - simpl app. change (join " " []) with EmptyString. reflexivity.
  - pose proof (join_truthy " " (x :: la) ltac:(discriminate) Ha) as Ta.
    destruct lb as [|y lb].
    + rewrite app_nil_r. change (join " " []) with EmptyString.
      now destruct (join " " (x :: la)).
    + pose proof (join_truthy " " (y :: lb) ltac:(discriminate) Hb) as Tb.
      rewrite join_app by discriminate.
      destruct (join " " (x :: la)); [discriminate |].
      now destruct (join " " (y :: lb)).
Qed.

(** X22.  A single line that is blank, starts with [<], contains [-->] or
    consists of digits only leaves no trace in the parsed text. *)
Theorem parse_subtitle_skips_cue_lines :
  forall text line : string,
    split_char "010"%char line = [line] ->
    ScriblText.keep_line (strip line) = false ->
    ScriblText.parse_subtitle_content (text ++ String "010"%char line)
    = ScriblText.parse_subtitle_content text.
Proof.
  intros text line Hline Hkeep. unfold ScriblText.parse_subtitle_content.
  rewrite split_char_app, text_lines_app, Hline.
  simpl. rewrite Hkeep. now rewrite app_nil_r.
Qed.

Lemma found_terms_in terms content : forall found p,
  In p (ProductionText.found_terms terms content found) ->
  In p found
  \/ exists term, In term terms /\ p = title term
                  /\ contains term (lower content) = true.
Proof.
  induction terms as [|t terms IH]; intros found p Hp; [now left |].
  simpl in Hp. apply IH in Hp. destruct Hp as [Hp | [term [H1 [H2 H3]]]].
  - destruct (contains t (lower content)) eqn:E; [| now left].
    apply in_app_or in Hp. destruct Hp as [Hp | [<- | []]]; [now left |].
    right. exists t. repeat split; [now left | exact E].
  - right. exists term. repeat split; [now right | exact H2 | exact H3].
Qed.

(** X23.  [extract_key_points] returns at most six points, and each of them
    is the capitalised form of an important term that occurs in the content
    when case is ignored. *)
Theorem extract_key_points_bounded :
  forall content : string,
    List.length (ProductionText.extract_key_points content) <= 6
    /\ forall p, In p (ProductionText.extract_key_points content) ->
         exists term, In term ProductionText.important_terms
                      /\ p = title term
                      /\ contains term (lower content) = true.
Proof.
  intros content. unfold ProductionText.extract_key_points. split.
  - rewrite length_firstn. lia.
  - intros p Hp.
    assert (Hin : In p (ProductionText.found_terms ProductionText.important_terms
                          content [])).
    { rewrite <- (firstn_skipn 6 (ProductionText.found_terms _ content [])).
      apply in_or_app. now left. }
    apply found_terms_in in Hin. destruct Hin as [[] | H]. exact H.
Qed.

Lemma insert_desc_in x l y :
  In y (ScriblText.insert_desc x l) <-> y = x \/ In y l.
Proof.
  induction l as [|z l IH]; simpl; [intuition congruence |].
  destruct (Nat.ltb (snd z) (snd x)); simpl; [intuition congruence |].
  rewrite IH. intuition congruence.
Qed.

Lemma sort_desc_in l : forall acc y,
  In y (fold_left (fun sorted x => ScriblText.insert_desc x sorted) l acc)
  <-> In y l \/ In y acc.
Proof.
  induction l as [|x l IH]; intros acc y; simpl; [tauto |].
  rewrite IH, insert_desc_in. intuition congruence.
Qed.

Lemma scored_sentences_in sentences p score :
  In (p, score) (ScriblText.scored_sentences sentences) ->
  exists sentence,
    In sentence sentences /\ p = strip sentence
    /\ score = ScriblText.sentence_score sentence
    /\ 0 < score /\ 5 < List.length (words sentence).
Proof.
  induction sentences as [|s sentences IH]; [intros [] |].
  simpl. destruct (Nat.ltb_spec 0 (ScriblText.sentence_score s)) as [H0|H0];
    destruct (Nat.ltb_spec 5 (List.length (words s))) as [H5|H5]; simpl;
    try (intros H; destruct (IH H) as [x [? ?]]; exists x; split; [now right | trivial]).
  intros [E | H].
  - inversion E; subst. exists s. repeat split; trivial. now left.
  - destruct (IH H) as [x [? ?]]. exists x. split; [now right | trivial].
Qed.

(** X24.  [extract_fallback_key_points] never returns an empty list and never
    more than six points; a point is one of the four stock phrases or a
    stripped sentence of the content that has more than five words and a
    positive score. *)
Theorem fallback_key_points_bounded :
  forall content : string,
    1 <= List.length (ScriblText.extract_fallback_key_points content) <= 6
    /\ forall p, In p (ScriblText.extract_fallback_key_points content) ->
         In p ScriblText.default_key_points
         \/ exists sentence,
              In sentence (split_dot content) /\ p = strip sentence
              /\ 0 < ScriblText.sentence_score sentence
              /\ 5 < List.length (words sentence).
Proof.
  intros content. unfold ScriblText.extract_fallback_key_points.
  set (ranked := ScriblText.sort_desc (ScriblText.scored_sentences (split_dot content))).
  destruct (map fst (firstn 6 ranked)) as [|p0 ps] eqn:E.
  - split; [simpl; lia | intros p Hp; now left].
  - split.
    + split; [simpl; lia |]. rewrite <- E, length_map, length_firstn. lia.
    + intros p Hp. right. rewrite <- E in Hp. apply in_map_iff in Hp.
      destruct Hp as [[q score] [Eq Hq]]. simpl in Eq. subst q.
      assert (Hr : In (p, score) ranked).
      { rewrite <- (firstn_skipn 6 ranked). apply in_or_app. now left. }
      unfold ranked, ScriblText.sort_desc in Hr. apply sort_desc_in in Hr.
      destruct Hr as [Hr | []].
      destruct (scored_sentences_in _ _ _ Hr) as [s [H1 [H2 [H3 [H4 H5]]]]].
      exists s. subst score. repeat split; assumption.
Qed.

Lemma insert_desc_sorted x l :
  StronglySorted (fun a b : string * nat => snd b <= snd a) l ->
  StronglySorted (fun a b : string * nat => snd b <= snd a)
    (ScriblText.insert_desc x l).
Proof.
  induction l as [|y l IH]; intros Hs; [repeat constructor |].
  apply StronglySorted_inv in Hs. destruct Hs as [Hs Hy]. simpl.
  destruct (Nat.ltb_spec (snd y) (snd x)) as [Hlt|Hge].
  - constructor; [now constructor |].
    constructor; [lia |]. eapply Forall_impl; [| exact Hy]. simpl. intros; lia.
  - constructor; [now apply IH |].
    apply Forall_forall. intros z Hz. apply insert_desc_in in Hz.
    destruct Hz as [-> | Hz]; [exact Hge |].
    rewrite Forall_forall in Hy. now apply Hy.
Qed.

Lemma insert_desc_perm x l : Permutation (ScriblText.insert_desc x l) (x :: l).
Proof.
  induction l as [|y l IH]; [reflexivity |].
  simpl. destruct (Nat.ltb (snd y) (snd x)); [reflexivity |].
  rewrite IH. apply perm_swap.
Qed.

Lemma sort_desc_fold l : forall acc,
  StronglySorted (fun a b : string * nat => snd b <= snd a) acc ->
  StronglySorted (fun a b : string * nat => snd b <= snd a)
    (fold_left (fun sorted x => ScriblText.insert_desc x sorted) l acc)
  /\ Permutation (fold_left (fun sorted x => ScriblText.insert_desc x sorted) l acc)
       (l ++ acc).
Proof.
  induction l as [|x l IH]; intros acc Hs; [now split |].
  simpl. destruct (IH _ (insert_desc_sorted x acc Hs)) as [H1 H2].
  split; [exact H1 |].
  rewrite H2, insert_desc_perm. symmetry. apply Permutation_middle.
Qed.

(** X25.  The key points are taken from the top of a ranking: the scored
    sentences rearranged so that the scores never increase; unless no
    sentence scores, the result is the first six sentences of it. *)
Theorem fallback_key_points_ranked :
  forall content : string,
    exists ranked,
      Permutation ranked (ScriblText.scored_sentences (split_dot content))
      /\ StronglySorted (fun a b : string * nat => snd b <= snd a) ranked
      /\ (ranked <> [] ->
          ScriblText.extract_fallback_key_points content
          = map fst (firstn 6 ranked))
      /\ (ranked = [] ->
          ScriblText.extract_fallback_key_points content
          = ScriblText.default_key_points).
Proof.
  intros content.
  exists (ScriblText.sort_desc (ScriblText.scored_sentences (split_dot content))).
  destruct (sort_desc_fold (ScriblText.scored_sentences (split_dot content)) []
              (SSorted_nil _)) as [H1 H2].
  rewrite app_nil_r in H2.
  split; [exact H2 |]. split; [exact H1 |].
  unfold ScriblText.extract_fallback_key_points.
  destruct (ScriblText.sort_desc _) as [|[p score] ranked]; split;
    try congruence; reflexivity.
Qed.

End TextMore.

Lemma parse_subtitle_skips_cue_lines_witness :
  ScriblText.parse_subtitle_content
    ("Hello" ++ String "010"%char "00:00:01,000 --> 00:00:02,000")%string
  = "Hello".
Proof.
  rewrite (parse_subtitle_skips_cue_lines "Hello" "00:00:01,000 --> 00:00:02,000");
    reflexivity.
Defined.

(** ** Persistence *)

Section PersistenceMore.
Import PyStr Py ProductionVectorDB ProductionPersistence.
Context {V : Type}.

(** The disk after [save_index], case by case. *)
Lemma save_index_cases (dimension : Z) (st : state V) (filepath : string)
    (dk : disk V) :
  fst (save_index dimension st filepath dk) = Returns tt
  /\ (index st <> None -> faiss_locked dk filepath = true ->
      snd (save_index dimension st filepath dk) = dk)
  /\ ((index st = None \/ faiss_locked dk filepath = false) ->
      metadata_locked dk filepath = false ->
      metadata_file (snd (save_index dimension st filepath dk)) filepath
      = Some (Stored (chunk_metadata st))
      /\ faiss_file (snd (save_index dimension st filepath dk)) filepath
         = match index st with
           | Some ix => Some (Stored ix)
           | None => faiss_file dk filepath
           end
      /\ (stats_locked dk filepath = false ->
          stats_file (snd (save_index dimension st filepath dk)) filepath
          = Some (Stored (mk_stats (List.length (chunk_metadata st))
                            (distinct_documents (chunk_metadata st))
                            dimension "HNSW")))
      /\ (stats_locked dk filepath = true ->
          stats_file (snd (save_index dimension st filepath dk)) filepath
          = stats_file dk filepath)).
Proof.
  unfold save_index, try_except, bind, ret, write_index, dump_metadata, dump_stats.
  destruct (index st) as [ix|]; simpl.
  - destruct (faiss_locked dk filepath) eqn:Lf; simpl.
    + split; [reflexivity |]. split; [reflexivity |].
      intros [H | H]; discriminate.
    + destruct (metadata_locked dk filepath) eqn:Lm; simpl;
        [split; [reflexivity |]; split; [discriminate |]; discriminate |].
      destruct (stats_locked dk filepath) eqn:Ls; simpl;
        (split; [reflexivity |]); (split; [discriminate |]); intros _ _;
        unfold update; rewrite ?String.eqb_refl; repeat split;
        try reflexivity; discriminate.
  - destruct (metadata_locked dk filepath) eqn:Lm; simpl;
      [split; [reflexivity |]; split; [congruence |]; discriminate |].
    destruct (stats_locked dk filepath) eqn:Ls; simpl;
      (split; [reflexivity |]); (split; [congruence |]); intros _ _;
      unfold update; rewrite ?String.eqb_refl; repeat split;
      try reflexivity; discriminate.
Qed.

(** X26.  What [save_index] wrote, [load_index] brings back: after a save of
    a store that has an index, to files that can be written, loading from
    the same prefix into any object returns [True] and leaves that object
    with the saved index and the saved metadata. *)
Theorem save_then_load_restores :
  forall (dimension : Z) (st st0 : state V) (ix : Faiss.index V)
         (filepath : string) (dk : disk V),
    index st = Some ix ->
    faiss_locked dk filepath = false ->
    metadata_locked dk filepath = false ->
    stats_locked dk filepath = false ->
    load_index (snd (save_index dimension st filepath dk)) filepath st0
    = (Returns true, mk_state (Some ix) (chunk_metadata st)).
Proof.
  intros dimension st st0 ix filepath dk Hix Lf Lm Ls.
  destruct (save_index_cases dimension st filepath dk) as [_ [_ H]].
  destruct (H (or_intror Lf) Lm) as [Hm [Hf [Hs _]]].
  unfold load_index, try_except. rewrite Hf, Hix, Hm, (Hs Ls). reflexivity.
Qed.

(** X27.  A store without index cannot be brought back: [save_index] writes
    its metadata but no index file, and unless an index file was there
    before, [load_index] returns [False] and leaves the object as it was. *)
Theorem saved_empty_store_is_not_loaded :
  forall (dimension : Z) (st st0 : state V) (filepath : string) (dk : disk V),
    index st = None ->
    faiss_file dk filepath = None ->
    metadata_locked dk filepath = false ->
    metadata_file (snd (save_index dimension st filepath dk)) filepath
    = Some (Stored (chunk_metadata st))
    /\ load_index (snd (save_index dimension st filepath dk)) filepath st0
       = (Returns false, st0).
Proof.
  intros dimension st st0 filepath dk Hix Hnone Lm.
  destruct (save_index_cases dimension st filepath dk) as [_ [_ H]].
  destruct (H (or_introl Hix) Lm) as [Hm [Hf _]].
  split; [exact Hm |].
  unfold load_index, try_except. rewrite Hf, Hix, Hnone. reflexivity.
Qed.

(** X28.  [load_index] assigns as it reads: when the index file is read and a
    later file is rejected, it returns [False] although the object already
    holds the loaded index (and the loaded metadata, when it is the
    statistics that are rejected). *)
Theorem load_index_fails_after_assigning :
  forall (dk : disk V) (filepath : string) (st0 : state V) (ix : Faiss.index V)
         (md : list metadata),
    faiss_file dk filepath = Some (Stored ix) ->
    (metadata_file dk filepath = Some Unreadable ->
     load_index dk filepath st0
     = (Returns false, mk_state (Some ix) (chunk_metadata st0)))
    /\ (metadata_file dk filepath = Some (Stored md) ->
        stats_file dk filepath = Some Unreadable ->
        load_index dk filepath st0 = (Returns false, mk_state (Some ix) md)).
Proof.
  intros dk filepath st0 ix md Hf. unfold load_index, try_except. rewrite Hf.
  split.
  - intros Hm. rewrite Hm. reflexivity.
  - intros Hm Hs. rewrite Hm, Hs. reflexivity.
Qed.

(** X29.  An index file without metadata file loads successfully: the index
    is replaced and the records of the object stay, whatever they are. *)
Theorem load_index_without_metadata_file :
  forall (dk : disk V) (filepath : string) (st0 : state V) (ix : Faiss.index V),
    faiss_file dk filepath = Some (Stored ix) ->
    metadata_file dk filepath = None ->
    stats_file dk filepath <> Some Unreadable ->
    load_index dk filepath st0
    = (Returns true, mk_state (Some ix) (chunk_metadata st0)).
Proof.
  intros dk filepath st0 ix Hf Hm Hs. unfold load_index, try_except.
  rewrite Hf, Hm.
  destruct (stats_file dk filepath) as [[s|]|]; [reflexivity | congruence | reflexivity].
Qed.

(** X30.  [save_index] never raises and touches no file of another prefix. *)
Theorem save_index_is_local :
  forall (dimension : Z) (st : state V) (filepath other : string) (dk : disk V),
    other <> filepath ->
    fst (save_index dimension st filepath dk) = Returns tt
    /\ faiss_file (snd (save_index dimension st filepath dk)) other
       = faiss_file dk other
    /\ metadata_file (snd (save_index dimension st filepath dk)) other
       = metadata_file dk other
    /\ stats_file (snd (save_index dimension st filepath dk)) other
       = stats_file dk other.
Proof.
  intros dimension st filepath other dk Hne. apply String.eqb_neq in Hne.
  unfold save_index, try_except, bind, ret, write_index, dump_metadata, dump_stats.
  destruct (index st) as [ix|]; simpl;
    try destruct (faiss_locked dk filepath); simpl;
    destruct (metadata_locked dk filepath); simpl;
    try destruct (stats_locked dk filepath); simpl;
    unfold update; rewrite ?Hne; repeat split; reflexivity.
Qed.

End PersistenceMore.

Lemma save_then_load_restores_witness :
  ProductionPersistence.load_index
    (snd (ProductionPersistence.save_index 384 Sample.once "data/index"
            (ProductionPersistence.mk_disk (fun _ => None) (fun _ => None)
               (fun _ => None) (fun _ => false) (fun _ => false) (fun _ => false))))
    "data/index" ProductionVectorDB.initial
  = (Py.Returns true, Sample.once).
Proof.
  exact (save_then_load_restores 384 Sample.once ProductionVectorDB.initial
           (Sample.hnsw_index [(431964211%Z, tt)]) "data/index"
           (ProductionPersistence.mk_disk (fun _ => None) (fun _ => None)
              (fun _ => None) (fun _ => false) (fun _ => false) (fun _ => false))
           eq_refl eq_refl eq_refl eq_refl).
Defined.

Lemma saved_empty_store_is_not_loaded_witness :
  ProductionPersistence.load_index
    (snd (ProductionPersistence.save_index 384
            (@ProductionVectorDB.initial unit) "data/index"
            (ProductionPersistence.mk_disk (fun _ => None) (fun _ => None)
               (fun _ => None) (fun _ => false) (fun _ => false) (fun _ => false))))
    "data/index" Sample.once
  = (Py.Returns false, Sample.once).
Proof.
  exact (proj2 (saved_empty_store_is_not_loaded 384
                  (@ProductionVectorDB.initial unit) Sample.once "data/index"
                  (ProductionPersistence.mk_disk (fun _ => None) (fun _ => None)
                     (fun _ => None) (fun _ => false) (fun _ => false)
                     (fun _ => false))
                  eq_refl eq_refl eq_refl)).
Defined.

Lemma load_index_fails_after_assigning_witness :
  ProductionPersistence.load_index
    (ProductionPersistence.mk_disk
       (fun _ => Some (ProductionPersistence.Stored (Sample.hnsw_index [(7%Z, tt)])))
       (fun _ => Some (ProductionPersistence.Stored []))
       (fun _ => Some ProductionPersistence.Unreadable)
       (fun _ => false) (fun _ => false) (fun _ => false))
    "data/index" Sample.once
  = (Py.Returns false, ProductionVectorDB.mk_state (Some (Sample.hnsw_index [(7%Z, tt)])) []).
Proof.
  exact (proj2 (load_index_fails_after_assigning
                  (ProductionPersistence.mk_disk
                     (fun _ => Some (ProductionPersistence.Stored (Sample.hnsw_index [(7%Z, tt)])))
                     (fun _ => Some (ProductionPersistence.Stored []))
                     (fun _ => Some ProductionPersistence.Unreadable)
                     (fun _ => false) (fun _ => false) (fun _ => false))
                  "data/index" Sample.once (Sample.hnsw_index [(7%Z, tt)]) [] eq_refl)
           eq_refl eq_refl).
Defined.

Lemma load_index_without_metadata_file_witness :
  ProductionPersistence.load_index
    (ProductionPersistence.mk_disk
       (fun _ => Some (ProductionPersistence.Stored (Sample.hnsw_index [(7%Z, tt)])))
       (fun _ => None) (fun _ => None)
       (fun _ => false) (fun _ => false) (fun _ => false))
    "data/index" Sample.once
  = (Py.Returns true,
     ProductionVectorDB.mk_state (Some (Sample.hnsw_index [(7%Z, tt)]))
       (ProductionVectorDB.chunk_metadata Sample.once)).
Proof.
  apply (load_index_without_metadata_file
           (ProductionPersistence.mk_disk
              (fun _ => Some (ProductionPersistence.Stored (Sample.hnsw_index [(7%Z, tt)])))
              (fun _ => None) (fun _ => None)
              (fun _ => false) (fun _ => false) (fun _ => false))
           "data/index" Sample.once (Sample.hnsw_index [(7%Z, tt)]));
    [reflexivity | reflexivity | discriminate].
Defined.

Lemma save_index_is_local_witness :
  ProductionPersistence.metadata_file
    (snd (ProductionPersistence.save_index 384 Sample.once "data/index"
            (ProductionPersistence.mk_disk (fun _ => None) (fun _ => None)
               (fun _ => None) (fun _ => false) (fun _ => false) (fun _ => false))))
    "data/other"
  = None.
Proof.
  destruct (save_index_is_local 384 Sample.once "data/index" "data/other"
              (ProductionPersistence.mk_disk (fun _ => None) (fun _ => None)
                 (fun _ => None) (fun _ => false) (fun _ => false) (fun _ => false))
              ltac:(discriminate)) as [_ [_ [H _]]].
  exact H.
Defined.

Lemma chunk_text_degenerate_witness :
  @VectorDBSetup.chunk_text unit "a b c" 2 5 tt = (Py.Returns [], tt).
Proof.
  destruct (chunk_text_degenerate unit "a b c" 2 5 tt) as [_ [H _]].
  apply H. lia.
Defined.
